(** * The GitHub service of sphinx-needs

    A shallow embedding of [sphinxcontrib/needs/services/github.py]: the
    construction of a [GithubService], the transport [_send] and the
    fetch-normalise-merge loop of [request], followed by the properties
    the specification states about them.

    Python objects are dynamically typed, so they are embedded in one
    type [value].  A [str] is a [string] whose characters are the code
    points below 256; a [dict] with string keys is a [gmap string value].
    Exceptions are values of type [exception]; code that can raise lives
    in [result], code that also logs or talks to the network in [M]. *)

From stdpp Require Import gmap strings list fin_maps.
From Stdlib Require Import ZArith DecimalString Ascii.

Set Warnings "-register-all".

(** ** Python values *)

Inductive value : Type :=
  | VNone
  | VBool (b : bool)
  | VInt (z : Z)
  | VStr (s : string)
  | VList (l : list value)
  | VDict (d : gmap string value).

Abbreviation pydict := (gmap string value).

(** ** Exceptions and their class hierarchy *)

Inductive exc_class : Type :=
  | BaseException
  | Exception
  | LookupError
  | KeyError
  | IndexError
  | TypeError
  | AttributeError
  | ValueError
  | NeedGithubServiceException.

(** The direct base class.  [NeedGithubServiceException] is declared as
    [class NeedGithubServiceException(BaseException)]. *)
Definition base_class (c : exc_class) : option exc_class :=
  match c with
  | BaseException => None
  | Exception => Some BaseException
  | LookupError => Some Exception
  | KeyError => Some LookupError
  | IndexError => Some LookupError
  | TypeError => Some Exception
  | AttributeError => Some Exception
  | ValueError => Some Exception
  | NeedGithubServiceException => Some BaseException
  end.

Definition exc_class_eqb (c d : exc_class) : bool :=
  match c, d with
  | BaseException, BaseException | Exception, Exception
  | LookupError, LookupError | KeyError, KeyError
  | IndexError, IndexError | TypeError, TypeError
  | AttributeError, AttributeError | ValueError, ValueError
  | NeedGithubServiceException, NeedGithubServiceException => true
  | _, _ => false
  end.

(** [issubclass c d], walking up the chain of base classes; the chain of
    any class above is shorter than four. *)
Fixpoint issubclass_fuel (fuel : nat) (c d : exc_class) : bool :=
  exc_class_eqb c d ||
  match fuel with
  | O => false
  | S fuel' =>
      match base_class c with
      | Some b => issubclass_fuel fuel' b d
      | None => false
      end
  end.

Definition issubclass (c d : exc_class) : bool := issubclass_fuel 4 c d.

(** An exception: its class and its argument.  The argument is the
    message for the exceptions the module raises itself and the key for
    a [KeyError] of a dictionary; for the other exceptions of the
    interpreter it is a short tag, not the interpreter's wording. *)
Record exception : Type := Raise { exc_type : exc_class; exc_arg : string }.

(** ** The two effect layers *)

(** Code that can only raise. *)
Definition result (A : Type) : Type := exception + A.

#[global] Instance result_ret : MRet result := λ A x, inr x.
#[global] Instance result_bind : MBind result := λ A B f m,
  match m with
  | inl e => inl e
  | inr a => f a
  end.

Definition throw {A : Type} (c : exc_class) (arg : string) : result A :=
  inl (Raise c arg).

(** What a call leaves behind in the outside world: the entries written
    to the service's logger and the GET requests that were sent. *)
Record world : Type := World {
  log : list (string * string);
  net_calls : list (string * pydict)
}.

Definition M (A : Type) : Type := world → result A * world.

#[global] Instance M_ret : MRet M := λ A x w, (inr x, w).
#[global] Instance M_bind : MBind M := λ A B f m w,
  match m w with
  | (inl e, w') => (inl e, w')
  | (inr a, w') => f a w'
  end.

Definition lift {A : Type} (r : result A) : M A := λ w, (r, w).

Definition raise {A : Type} (c : exc_class) (arg : string) : M A :=
  lift (throw c arg).

Definition log_entry (level msg : string) : M unit := λ w,
  (inr tt, World (log w ++ [(level, msg)]) (net_calls w)).

(** [try: m except cls: handler]: the handler runs only for an exception
    whose class is a subclass of [cls]; any other exception propagates. *)
Definition try_except {A : Type} (m : M A) (cls : exc_class)
    (handler : exception → M A) : M A := λ w,
  match m w with
  | (inl e, w') =>
      if issubclass (exc_type e) cls then handler e w' else (inl e, w')
  | (inr a, w') => (inr a, w')
  end.

(** ** Strings *)

Definition chr (n : nat) : ascii := ascii_of_nat n.
Definition ord (c : ascii) : N := N_of_ascii c.

Definition LF : ascii := Eval cbv in chr 10.
Definition CR : ascii := Eval cbv in chr 13.
Definition DQ : ascii := Eval cbv in chr 34.

(** The newline and the double quote as one-character strings. *)
Definition nl : string := String LF "".
Definition dq : string := String DQ "".

(** Line boundaries of [str.splitlines]: LF, VT, FF, CR, FS, GS, RS, NEL. *)
Definition is_linebreak (c : ascii) : bool :=
  existsb (N.eqb (ord c)) [10; 11; 12; 13; 28; 29; 30; 133]%N.

(** [str.isspace] on one character. *)
Definition isspace (c : ascii) : bool :=
  existsb (N.eqb (ord c)) [9; 10; 11; 12; 13; 28; 29; 30; 31; 32; 133; 160]%N.

(** [splitlines_from cur s]: [cur] is the line read so far.  A line
    break closes the current line, CR LF counts as one break, and no
    empty line is produced after the last break. *)
Fixpoint splitlines_from (cur s : string) {struct s} : list string :=
  match s with
  | EmptyString => if bool_decide (cur = "") then [] else [cur]
  | String c rest =>
      if is_linebreak c then
        cur :: match rest with
               | EmptyString => []
               | String c' rest' =>
                   if N.eqb (ord c) 13 && N.eqb (ord c') 10
                   then splitlines_from "" rest'
                   else splitlines_from "" rest
               end
      else splitlines_from (cur +:+ String c "") rest
  end.

Definition splitlines (s : string) : list string := splitlines_from "" s.

Fixpoint lstrip (s : string) : string :=
  match s with
  | EmptyString => ""
  | String c rest => if isspace c then lstrip rest else s
  end.

Definition rstrip (s : string) : string := String.rev (lstrip (String.rev s)).

Definition strip (s : string) : string := rstrip (lstrip s).

Definition digit_of (c : ascii) : option Z :=
  let n := ord c in
  if (48 <=? n)%N && (n <=? 57)%N then Some (Z.of_N n - 48)%Z else None.

(** The digits of an integer literal: single underscores are allowed
    between digits only.  [prev] tells whether the previous character
    was a digit. *)
Fixpoint parse_digits (acc : Z) (prev : bool) (s : string) : option Z :=
  match s with
  | EmptyString => if prev then Some acc else None
  | String c rest =>
      match digit_of c with
      | Some d => parse_digits (10 * acc + d)%Z true rest
      | None =>
          if N.eqb (ord c) 95 && prev then parse_digits acc false rest
          else None
      end
  end.

(** [int(s)] for a string in base ten. *)
Definition int_of_string (s : string) : option Z :=
  match strip s with
  | String c rest =>
      if N.eqb (ord c) 45 then Z.opp <$> parse_digits 0 false rest
      else if N.eqb (ord c) 43 then parse_digits 0 false rest
      else parse_digits 0 false (String c rest)
  | EmptyString => None
  end.

Definition string_of_Z (z : Z) : string := NilZero.string_of_int (Z.to_int z).

(** [sep.join(parts)] on strings is [String.concat sep parts]. *)
Definition join (sep : string) (parts : list string) : string :=
  String.concat sep parts.

(** ** Operations on values *)

(** [int(v)] *)
Definition py_int (v : value) : result Z :=
  match v with
  | VInt z => mret z
  | VBool b => mret (if b then 1 else 0)%Z
  | VStr s =>
      match int_of_string s with
      | Some z => mret z
      | None => throw ValueError "invalid literal for int() with base 10"
      end
  | _ => throw TypeError "int() argument must be a string or a number"
  end.

(** [v > 0] *)
Definition py_gt_zero (v : value) : result bool :=
  match v with
  | VInt z => mret (0 <? z)%Z
  | VBool b => mret b
  | _ => throw TypeError "'>' not supported"
  end.

(** [v[key]] for a string key. *)
Definition subscript (v : value) (key : string) : result value :=
  match v with
  | VDict d =>
      match d !! key with
      | Some x => mret x
      | None => throw KeyError key
      end
  | _ => throw TypeError "indices must be integers or object is not subscriptable"
  end.

(** The elements a [for] loop sees. *)
Definition py_iter (v : value) : result (list value) :=
  match v with
  | VList l => mret l
  | VStr s => mret ((λ c, VStr (String c "")) <$> String.list_ascii_of_string s)
  | VDict d => mret ((λ kv, VStr kv.1) <$> map_to_list d)
  | _ => throw TypeError "object is not iterable"
  end.

(** [v.splitlines()] *)
Definition py_splitlines (v : value) : result (list string) :=
  match v with
  | VStr s => mret (splitlines s)
  | _ => throw AttributeError "splitlines"
  end.

(** [sep.join(vs)]: every element has to be a [str]. *)
Fixpoint strings_of (vs : list value) : result (list string) :=
  match vs with
  | [] => mret []
  | VStr s :: rest => ss ← strings_of rest; mret (s :: ss)
  | _ :: _ => throw TypeError "sequence item: expected str instance"
  end.

Definition py_join (sep : string) (vs : list value) : result string :=
  ss ← strings_of vs; mret (join sep ss).

(** [a + b] where [b] is a string. *)
Definition py_add_str (a : value) (b : string) : result string :=
  match a with
  | VStr s => mret (s +:+ b)
  | _ => throw TypeError "unsupported operand type(s) for +"
  end.

(** [hash(v)] succeeds: needed by [v in d.keys()]. *)
Definition hashable (v : value) : bool :=
  match v with
  | VList _ | VDict _ => false
  | _ => true
  end.

(** [lst[0:n]] *)
Definition slice_to {A : Type} (l : list A) (n : Z) : list A :=
  if (0 <=? n)%Z then take (Z.to_nat n) l
  else take (Z.to_nat (Z.of_nat (length l) + n)) l.

(** The list comprehension [[f(x) for x in xs]] with a body that can raise. *)
Fixpoint for_each {A B : Type} (f : A → result B) (xs : list A) : result (list B) :=
  match xs with
  | [] => mret []
  | x :: rest => y ← f x; ys ← for_each f rest; mret (y :: ys)
  end.

(** ** Module constants *)

Definition EXTRA_DATA_OPTIONS : list string :=
  ["user"; "created_at"; "updated_at"; "closed_at"].
Definition EXTRA_LINK_OPTIONS : list string := ["url"].
Definition EXTRA_IMAGE_OPTIONS : list string := ["avatar"].

(** Options which configure the service. *)
Definition CONFIG_OPTIONS : list string :=
  ["type"; "query"; "max_amount"; "max_content_lines"; "id_prefix"].

Definition GITHUB_DATA : list string :=
  ["status"; "tags"] ++ EXTRA_DATA_OPTIONS ++ EXTRA_LINK_OPTIONS ++ EXTRA_IMAGE_OPTIONS.

Definition quoted_list (names : list string) : string :=
  dq +:+ join (dq +:+ "," +:+ dq) names +:+ dq.

Definition GITHUB_DATA_STR : string :=
  quoted_list (EXTRA_DATA_OPTIONS ++ EXTRA_LINK_OPTIONS ++ EXTRA_IMAGE_OPTIONS).
Definition CONFIG_DATA_STR : string := quoted_list CONFIG_OPTIONS.

Definition GITHUB_LAYOUT : value :=
  let str_list (l : list string) := VList (VStr <$> l) in
  VDict (list_to_map [
    ("grid", VStr "complex");
    ("layout", VDict (list_to_map [
      ("head_left", str_list ["<<meta_id()>>"]);
      ("head", str_list ["**<<meta(" +:+ dq +:+ "title" +:+ dq +:+ ")>>**"]);
      ("head_right", str_list [
         "<<image(" +:+ dq +:+ "field:avatar" +:+ dq +:+ ", width=" +:+ dq +:+ "40px"
           +:+ dq +:+ ", align=" +:+ dq +:+ "middle" +:+ dq +:+ ", is_external=True)>>";
         "<<meta(" +:+ dq +:+ "user" +:+ dq +:+ ")>>"]);
      ("meta_left", str_list (
         ((λ x, "<<meta(" +:+ dq +:+ x +:+ dq +:+ ", prefix=" +:+ dq +:+ x +:+ ": "
                  +:+ dq +:+ ")>>") <$> EXTRA_DATA_OPTIONS) ++
         ((λ x, "<<link(" +:+ dq +:+ x +:+ dq +:+ ", text=" +:+ dq +:+ "Link" +:+ dq
                  +:+ ", prefix=" +:+ dq +:+ x +:+ ": " +:+ dq +:+ ", is_dynamic=True)>>")
            <$> EXTRA_LINK_OPTIONS)));
      ("meta_right", str_list [
         "<<meta(" +:+ dq +:+ "type_name" +:+ dq +:+ ", prefix=" +:+ dq +:+ "type: "
           +:+ dq +:+ ")>>";
         "<<meta_all(no_links=True, exclude=[" +:+ dq +:+ "layout" +:+ dq +:+ ","
           +:+ dq +:+ "style" +:+ dq +:+ "," +:+ GITHUB_DATA_STR +:+ ", "
           +:+ CONFIG_DATA_STR +:+ "])>>";
         "<<meta_links_all()>>"]);
      ("footer_left", str_list ["layout: <<meta(" +:+ dq +:+ "layout" +:+ dq +:+ ")>>"]);
      ("footer", str_list []);
      ("footer_right", str_list ["style: <<meta(" +:+ dq +:+ "style" +:+ dq +:+ ")>>"])
    ]))
  ]).

(** One entry of [self.type_config]. *)
Record kind_config : Type := KindConfig { kc_url : string; kc_query : string }.

(** [self.type_config], in the order the dictionary is written. *)
Definition type_config : list (string * kind_config) :=
  [ ("issue", KindConfig "search/issues" "is:issue");
    ("pr", KindConfig "search/issues" "is:pr");
    ("commit", KindConfig "search/commits" "") ].

Definition type_config_keys : list string := fst <$> type_config.

Fixpoint assoc {A : Type} (k : string) (l : list (string * A)) : option A :=
  match l with
  | [] => None
  | (k', x) :: rest => if bool_decide (k = k') then Some x else assoc k rest
  end.

(** The part of the host application the service reads and writes:
    [app.config.needs_types] and [app.config.needs_layouts]. *)
Record App : Type := MkApp {
  needs_types : list value;
  needs_layouts : pydict
}.

(** The attributes of a constructed service. *)
Record GithubService : Type := MkService {
  self_name : string;
  self_config : pydict;
  self_url : value;
  self_need_type : value;
  self_max_amount : value;
  self_max_content_lines : value;
  self_id_prefix : value;
  self_layout : value;
  self_type : value
}.

(** The literal block marker put in front of every content, the marker
    appended to a shortened content, and the column the lines are
    wrapped at. *)
Definition code_block_marker : string :=
  ".. code-block:: text" +:+ nl +:+ nl +:+ "   ".
Definition cutoff_marker : string := nl +:+ "   [...]" +:+ nl.
Definition wrap_width : nat := 60.

(** The loop which adds the caller's options to the data of one need:
    [for key, value in options.items():
       if key not in element_data.keys() and key not in GITHUB_DATA:
         element_data[key] = value] *)
Definition add_option (key : string) (val : value) (element_data : pydict) : pydict :=
  if bool_decide (element_data !! key = None) && bool_decide (key ∉ GITHUB_DATA)
  then <[key := val]> element_data
  else element_data.

Definition merge_options (options element_data : pydict) : pydict :=
  map_fold add_option element_data options.

(** The keys of the dictionary built for one record, see
    [element_data] below. *)
Definition ITEM_KEYS : list string :=
  ["type"; "layout"; "id"; "title"; "content"; "status"; "tags"; "user";
   "url"; "avatar"; "created_at"; "updated_at"; "closed_at"].

Section Service.

(** What the code uses and the module does not define. *)

(** [textwrap.wrap(line, width, break_long_words=True, replace_whitespace=False)]
    of the standard library. *)
Variable textwrap_wrap : string → nat → list string.

(** [repr] of a list or of a dictionary, as an f-string shows them. *)
Variable py_repr : value → string.

(** The class attribute [type] which [GithubService] inherits from
    [BaseService], if that class has one. *)
Variable base_type : option value.

(** The provider: [requests.get(url, params=params).json()] gives the
    decoded body or raises. *)
Variable http_get_json : string → pydict → result value.

(** An f-string field [{v}]. *)
Definition py_str (v : value) : string :=
  match v with
  | VNone => "None"
  | VBool true => "True"
  | VBool false => "False"
  | VInt z => string_of_Z z
  | VStr s => s
  | _ => py_repr v
  end.

(** [self.type_config[t]] *)
Definition type_config_get (t : value) : result kind_config :=
  if hashable t then
    match t with
    | VStr k =>
        match assoc k type_config with
        | Some kc => mret kc
        | None => throw KeyError k
        end
    | _ => throw KeyError (py_str t)
    end
  else throw TypeError "unhashable type".

(** [t in self.type_config.keys()] *)
Definition type_supported (t : value) : result bool :=
  if hashable t then
    match t with
    | VStr k => mret (bool_decide (k ∈ type_config_keys))
    | _ => mret false
    end
  else throw TypeError "unhashable type".

Definition unsupported_type_message (t : value) : string :=
  "github type " +:+ dq +:+ py_str t +:+ dq +:+ " not supported. Use: "
    +:+ join ", " type_config_keys.

(** [GithubService.__init__(self, app, name, config, **kwargs)].  The
    host application is handed back with the layout registered; that
    registration has happened when the type check raises. *)
Definition __init__ (app : App) (name : string) (config kwargs : pydict)
    : App * result GithubService :=
  let url := default (VStr "https://api.github.com/") (config !! "url") in
  match
    (match needs_types app with
     | [] => throw IndexError "list index out of range"
     | t0 :: _ => subscript t0 "directive"
     end)
  with
  | inl e => (app, inl e)
  | inr directive =>
      let need_type := default directive (config !! "need_type") in
      let max_amount := default (VInt 5) (config !! "max_amount") in
      let max_content_lines := default (VInt (-1)) (config !! "max_content_lines") in
      let id_prefix := default (VStr "GITHUB_") (config !! "id_prefix") in
      let layout := default (VStr "github") (config !! "layout") in
      let app' :=
        if bool_decide (needs_layouts app !! "github" = None)
        then MkApp (needs_types app) (<["github" := GITHUB_LAYOUT]> (needs_layouts app))
        else app in
      (app',
       match (match kwargs !! "type" with Some t => Some t | None => base_type end) with
       | None => throw AttributeError "type"
       | Some t =>
           supported ← type_supported t;
           if supported : bool then
             mret (MkService name config url need_type max_amount
                     max_content_lines id_prefix layout t)
           else throw KeyError (unsupported_type_message t)
       end)
  end.

(** [requests.get(url, params=params)] followed by [resp.json()]: the
    request is sent, whatever the answer. *)
Definition requests_get (url : string) (params : pydict) : M value := λ w,
  (http_get_json url params, World (log w) (net_calls w ++ [(url, params)])).

(** [GithubService._send(self, query, options)] *)
Definition _send (self : GithubService) (query : value) (options : pydict) : M value :=
  kc ← lift (type_config_get (self_type self));
  let query := py_str query +:+ " " +:+ kc_query kc in
  let params : pydict :=
    <["per_page" := default (self_max_amount self) (options !! "max_amount")]>
      (<["q" := VStr query]> ∅) in
  url ← lift (py_add_str (self_url self) (kc_url kc));
  _ ← log_entry "info"
        ("Service " +:+ self_name self +:+ " requesting data for query: " +:+ query);
  requests_get url params.

(** The wrapped lines of a body: every line which is not blank is
    wrapped at 60 columns, its continuation lines indented. *)
Definition wrap_body (body_lines : list string) : list string :=
  (λ line, join (nl +:+ "   ") (textwrap_wrap line wrap_width))
    <$> filter (λ line, strip line ≠ "") body_lines.

(** [if self.max_content_lines > 0: ...]: the content is shortened to
    [max_lines] lines and the cut is marked. *)
Definition reduce_content (self : GithubService) (options : pydict)
    (content : string) : result string :=
  requested ← py_gt_zero (self_max_content_lines self);
  if requested : bool then
    max_lines ← py_int (default (self_max_content_lines self)
                          (options !! "max_content_lines"));
    let content_lines := splitlines content in
    let content_lines :=
      if (max_lines <? Z.of_nat (length content_lines))%Z
      then slice_to content_lines max_lines ++ [cutoff_marker]
      else content_lines in
    mret (join nl content_lines)
  else mret content.

(** The bound on the number of lines which is in effect for a request:
    the [max_lines] of [reduce_content] where that is computed, none
    where the configuration asks for no reduction. *)
Definition max_lines_in_effect (self : GithubService) (options : pydict)
    : result (option Z) :=
  requested ← py_gt_zero (self_max_content_lines self);
  if requested : bool then
    max_lines ← py_int (default (self_max_content_lines self)
                          (options !! "max_content_lines"));
    mret (Some max_lines)
  else mret None.

(** The content of one need, from the body of the record. *)
Definition need_content (self : GithubService) (options : pydict)
    (body : value) : result string :=
  body_lines ← py_splitlines body;
  let content_lines := wrap_body body_lines in
  let content := join (nl +:+ nl +:+ "   ") content_lines in
  content ← reduce_content self options content;
  mret (code_block_marker +:+ content).

(** The dictionary [element_data] built for one record. *)
Definition element_data (self : GithubService) (options : pydict)
    (item : value) (content : string) : result pydict :=
  let prefix := default (self_id_prefix self) (options !! "id_prefix") in
  number ← subscript item "number";
  let need_id := py_str prefix +:+ py_str number in
  title ← subscript item "title";
  state ← subscript item "state";
  labels ← subscript item "labels";
  labels ← py_iter labels;
  names ← for_each (λ x, subscript x "name") labels;
  tags ← py_join "," names;
  user ← subscript item "user";
  login ← subscript user "login";
  html_url ← subscript item "html_url";
  user ← subscript item "user";
  avatar_url ← subscript user "avatar_url";
  created_at ← subscript item "created_at";
  updated_at ← subscript item "updated_at";
  closed_at ← subscript item "closed_at";
  mret (list_to_map [
    ("type", default (self_need_type self) (options !! "type"));
    ("layout", default (self_layout self) (options !! "layout"));
    ("id", VStr need_id);
    ("title", title);
    ("content", VStr content);
    ("status", state);
    ("tags", VStr tags);
    ("user", login);
    ("url", html_url);
    ("avatar", avatar_url);
    ("created_at", created_at);
    ("updated_at", updated_at);
    ("closed_at", closed_at)
  ]).

(** The body of the loop over the records of the response. *)
Definition need_of_item (self : GithubService) (options : pydict)
    (item : value) : result pydict :=
  body ← subscript item "body";
  content ← need_content self options body;
  data ← element_data self options item content;
  mret (merge_options options data).

(** [for item in response['items']: ... data.append(element_data)] *)
Fixpoint collect_needs (self : GithubService) (options : pydict)
    (items : list value) (data : list pydict) : result (list pydict) :=
  match items with
  | [] => mret data
  | item :: rest =>
      need ← need_of_item self options item;
      collect_needs self options rest (data ++ [need])
  end.

Definition missing_query_message : string :=
  dq +:+ "query" +:+ dq +:+ " missing as option for github service.".

(** [GithubService.request(self, options=None)] *)
Definition request (self : GithubService) (options : option pydict)
    : M (list pydict) :=
  let options := default ∅ options in
  _ ← log_entry "debug" ("Requesting data for service " +:+ self_name self);
  match options !! "query" with
  | None => raise NeedGithubServiceException missing_query_message
  | Some query =>
      response ← _send self query options;
      items ← lift (subscript response "items");
      items ← lift (py_iter items);
      lift (collect_needs self options items [])
  end.

End Service.

(** ** Sample collaborators

    Concrete stand-ins for what the section above leaves open; the
    examples below run the service with them. *)

(** [textwrap.wrap] on a line which is one word, without white space
    and without a hyphen: the word is cut into pieces of [width]
    characters. *)
Fixpoint pieces_from (width room : nat) (cur s : string) : list string :=
  match s with
  | EmptyString => if bool_decide (cur = "") then [] else [cur]
  | String c rest =>
      match room with
      | O => cur :: pieces_from width (pred width) (String c "") rest
      | S room' => pieces_from width room' (cur +:+ String c "") rest
      end
  end.

Definition wrap_word (line : string) (width : nat) : list string :=
  match width with
  | O => []
  | S _ => pieces_from width width "" line
  end.

(** No list and no dictionary is formatted in the examples. *)
Definition repr_unused (v : value) : string := "".

(** A provider which answers every search with the same body. *)
Definition provider (response : value) (url : string) (params : pydict)
    : result value := inr response.

Definition issue_record (number : Z) (body : string) (labels : list string) : value :=
  VDict (list_to_map [
    ("number", VInt number);
    ("title", VStr "Crash on start");
    ("body", VStr body);
    ("state", VStr "open");
    ("labels", VList ((λ n, VDict {[ "name" := VStr n ]}) <$> labels));
    ("user", VDict (list_to_map [
       ("login", VStr "octocat");
       ("avatar_url", VStr "https://avatars.example/1")]));
    ("html_url", VStr "https://github.example/issues/1");
    ("created_at", VStr "2020-01-01T00:00:00Z");
    ("updated_at", VStr "2020-01-02T00:00:00Z");
    ("closed_at", VNone)
  ]).

Definition search_response (records : list value) : value :=
  VDict {[ "items" := VList records ]}.

Definition sample_app : App :=
  MkApp [VDict {[ "directive" := VStr "req" ]}] ∅.

Definition empty_world : world := World [] [].

(** A service as [__init__] builds it for the kind [issue] from the
    given configuration. *)
Definition issue_service (config : pydict) : GithubService :=
  MkService "github-issues" config
    (default (VStr "https://api.github.com/") (config !! "url"))
    (default (VStr "req") (config !! "need_type"))
    (default (VInt 5) (config !! "max_amount"))
    (default (VInt (-1)) (config !! "max_content_lines"))
    (default (VStr "GITHUB_") (config !! "id_prefix"))
    (default (VStr "github") (config !! "layout"))
    (VStr "issue").

(** A body of five short lines. *)
Definition five_lines : string :=
  "one" +:+ nl +:+ "two" +:+ nl +:+ "three" +:+ nl +:+ "four" +:+ nl +:+ "five".

(** A body of three lines: wrapped and joined it spans five lines, a
    blank line between any two of them. *)
Definition three_lines : string := "one" +:+ nl +:+ "two" +:+ nl +:+ "three".

(** A provider which cannot be reached. *)
Definition connection_error : exception := Raise Exception "ConnectionError".

Definition unreachable (url : string) (params : pydict) : result value :=
  inl connection_error.

(** The kind of [issue_service] and the path and parameters of its
    requests for the query [bug]. *)
Definition issue_kind : kind_config := KindConfig "search/issues" "is:issue".

(** An answer with two issues, and one with a record between them
    which has no field at all. *)
Definition two_issues : list value :=
  [issue_record 7 three_lines ["bug"]; issue_record 8 "" []].

Definition broken_answer : list value :=
  [issue_record 7 three_lines ["bug"]; VDict ∅; issue_record 8 "" []].

(** The fields of a need which are a field of the record as it is,
    each with the key of the record it comes from, and the keys of the
    record which the loop body reads. *)
Definition PROJECTED_FIELDS : list (string * string) :=
  [("title", "title"); ("status", "state"); ("url", "html_url");
   ("created_at", "created_at"); ("updated_at", "updated_at");
   ("closed_at", "closed_at")].

Definition RECORD_KEYS : list string :=
  ["body"; "number"; "title"; "state"; "labels"; "user"; "html_url";
   "created_at"; "updated_at"; "closed_at"].

(** A record with one field replaced. *)
Definition with_field (key : string) (val : value) (item : value) : value :=
  match item with
  | VDict record => VDict (<[key := val]> record)
  | _ => item
  end.

(** Predicates on strings which the properties of the content use: the
    characters of a string, a string without line boundary, a string
    of white space, a string whose only line boundaries are newlines,
    and whether a string ends with a newline. *)
Definition chars (s : string) : list ascii := String.list_ascii_of_string s.

Definition breakfree (s : string) : Prop :=
  Forall (λ c, is_linebreak c = false) (chars s).

Definition blank (s : string) : Prop :=
  Forall (λ c, isspace c = true) (chars s).

Definition only_newline_breaks (s : string) : Prop :=
  Forall (λ c, is_linebreak c = true → c = LF) (chars s).

Fixpoint ends_with_newline (s : string) : bool :=
  match s with
  | EmptyString => false
  | String c rest =>
      match rest with
      | EmptyString => N.eqb (ord c) 10
      | String _ _ => ends_with_newline rest
      end
  end.

(** A body of two lines of white space. *)
Definition blank_lines : string := "  " +:+ nl +:+ " ".

(** Reading a result off a run: whether it succeeded, whether it is a
    list of one need, and the value itself. *)
Definition succeeded {A : Type} (r : result A) : bool :=
  match r with
  | inr _ => true
  | inl _ => false
  end.

Definition value_of {A : Type} (d : A) (r : result A) : A :=
  match r with
  | inr x => x
  | inl _ => d
  end.

Definition returns_one_need (r : result (list pydict)) : bool :=
  match r with
  | inr [_] => true
  | _ => false
  end.

Definition first_need (r : result (list pydict)) : pydict :=
  match r with
  | inr (need :: _) => need
  | _ => ∅
  end.

(** * Properties *)

(** ** Proof support *)

(** Splits the first bind of a computation in [result] that hypothesis
    [H] says has succeeded. *)
Ltac bind_succeeds H :=
  match type of H with
  | context [mbind _ ?m] =>
      let E := fresh "E" in
      destruct m eqn:E; [discriminate H|]; cbn [mbind result_bind] in H
  | context [match ?m with inl _ => _ | inr _ => _ end] =>
      let E := fresh "E" in
      destruct m eqn:E; [discriminate H|]
  end.

Lemma issubclass_need_exception :
  issubclass NeedGithubServiceException Exception = false
  ∧ issubclass NeedGithubServiceException BaseException = true.
Proof. split; reflexivity. Qed.

Lemma succeeded_value_of {A : Type} (d : A) (r : result A) :
  succeeded r = true → r = inr (value_of d r).
Proof. by destruct r. Qed.

Lemma returns_one_need_first (r : result (list pydict)) :
  returns_one_need r = true → r = inr [first_need r].
Proof. by destruct r as [e|[|need [|]]]. Qed.

(** ** The request without a query *)

Section MissingQuery.

Variable textwrap_wrap : string → nat → list string.
Variable py_repr : value → string.
Variable http_get_json : string → pydict → result value.

(** What a request without query does: one debug entry is logged, the
    exception is raised, nothing else happens. *)
Lemma request_without_query self options w :
  default ∅ options !! "query" = None →
  request textwrap_wrap py_repr http_get_json self options w =
    (inl (Raise NeedGithubServiceException missing_query_message),
     World (log w ++ [("debug", "Requesting data for service " +:+ self_name self)])
           (net_calls w)).
Proof.
  intros Hq. unfold request.
  cbv beta zeta. unfold mbind, M_bind, log_entry. cbn [fst snd].
  rewrite Hq. reflexivity.
Qed.

(** C5: a request whose options lack the key [query] fails with the
    request error, and no call to the provider is made: the list of
    requests sent is the one before the call. *)
Theorem request_without_query_sends_nothing self options w :
  default ∅ options !! "query" = None →
  (request textwrap_wrap py_repr http_get_json self options w).1 =
      inl (Raise NeedGithubServiceException missing_query_message)
  ∧ net_calls (request textwrap_wrap py_repr http_get_json self options w).2
    = net_calls w.
Proof.
  intros Hq. rewrite (request_without_query _ _ _ Hq). split; reflexivity.
Qed.

(** C10: the error of a request without query has the class
    [NeedGithubServiceException], which derives from [BaseException]
    and not from [Exception]; an [except Exception] handler around the
    request does not run, the exception reaches the caller. *)
Theorem missing_query_escapes_except_Exception self options handler w :
  default ∅ options !! "query" = None →
  (∃ e, (request textwrap_wrap py_repr http_get_json self options w).1 = inl e
        ∧ exc_type e = NeedGithubServiceException)
  ∧ issubclass NeedGithubServiceException Exception = false
  ∧ issubclass NeedGithubServiceException BaseException = true
  ∧ try_except (request textwrap_wrap py_repr http_get_json self options)
      Exception handler w
    = request textwrap_wrap py_repr http_get_json self options w.
Proof.
  intros Hq. pose proof (request_without_query self options w Hq) as Hr.
  split; [|split; [|split]]; try reflexivity.
  - eexists. rewrite Hr. split; reflexivity.
  - unfold try_except. rewrite Hr. reflexivity.
Qed.

End MissingQuery.

(** The request [{}] against the sample service: the hypothesis of the
    theorem holds and the provider has not been called. *)
Lemma request_without_query_sends_nothing_witness :
  default ∅ (Some (∅ : pydict)) !! "query" = None
  ∧ (request wrap_word repr_unused (provider (search_response []))
       (issue_service ∅) (Some ∅) empty_world).1
    = inl (Raise NeedGithubServiceException missing_query_message)
  ∧ net_calls (request wrap_word repr_unused (provider (search_response []))
                 (issue_service ∅) (Some ∅) empty_world).2 = [].
Proof.
  split; [reflexivity|].
  apply (request_without_query_sends_nothing wrap_word repr_unused
           (provider (search_response [])) (issue_service ∅) (Some ∅) empty_world).
  reflexivity.
Defined.

(** A handler which would answer with the empty list is of no use when
    the request is made without options. *)
Lemma missing_query_escapes_except_Exception_witness :
  default ∅ (None : option pydict) !! "query" = None
  ∧ try_except (request wrap_word repr_unused (provider (search_response []))
                  (issue_service ∅) None)
      Exception (λ _, mret []) empty_world
    = request wrap_word repr_unused (provider (search_response []))
        (issue_service ∅) None empty_world.
Proof.
  split; [reflexivity|].
  apply (missing_query_escapes_except_Exception wrap_word repr_unused
           (provider (search_response [])) (issue_service ∅) None
           (λ _, mret []) empty_world).
  reflexivity.
Defined.

(** ** Merging the caller's options *)

(** What the merged dictionary holds under a key: the value the record
    has set, otherwise the caller's option unless the key is one of
    [GITHUB_DATA]. *)
Lemma merge_options_lookup (options data : pydict) (k : string) :
  merge_options options data !! k =
    match data !! k with
    | Some x => Some x
    | None => if bool_decide (k ∈ GITHUB_DATA) then None else options !! k
    end.
Proof.
  unfold merge_options. revert k.
  apply (map_fold_weak_ind
    (λ (r m : pydict), ∀ k, r !! k =
       match data !! k with
       | Some x => Some x
       | None => if bool_decide (k ∈ GITHUB_DATA) then None else m !! k
       end)).
  - intros k. rewrite lookup_empty. destruct (data !! k); [done|].
    by destruct (bool_decide (k ∈ GITHUB_DATA)).
  - intros i x m r Hi IH k. unfold add_option.
    destruct (decide (k = i)) as [->|Hne].
    + pose proof (IH i) as IHi. rewrite Hi in IHi.
      rewrite lookup_insert_eq.
      destruct (data !! i) as [y|] eqn:Hd.
      * rewrite bool_decide_eq_false_2 by (rewrite IHi; discriminate).
        exact IHi.
      * assert (r !! i = None) as Hr
          by (rewrite IHi; by destruct (bool_decide (i ∈ GITHUB_DATA))).
        rewrite (bool_decide_eq_true_2 _ Hr). cbn [andb].
        destruct (decide (i ∈ GITHUB_DATA)) as [Hg|Hg].
        -- rewrite (bool_decide_eq_false_2 (i ∉ GITHUB_DATA)) by tauto.
           by rewrite (bool_decide_eq_true_2 _ Hg).
        -- rewrite (bool_decide_eq_true_2 (i ∉ GITHUB_DATA)) by done.
           rewrite (bool_decide_eq_false_2 _ Hg). apply lookup_insert_eq.
    + rewrite (lookup_insert_ne m) by done.
      destruct (bool_decide (r !! i = None) && bool_decide (i ∉ GITHUB_DATA)).
      * rewrite lookup_insert_ne by done. apply IH.
      * apply IH.
Qed.

(** The record sets every key of [GITHUB_DATA]. *)
Lemma GITHUB_DATA_are_item_keys (k : string) : k ∈ GITHUB_DATA → k ∈ ITEM_KEYS.
Proof.
  revert k. apply Forall_forall.
  apply (bool_decide_unpack (Forall (λ k, k ∈ ITEM_KEYS) GITHUB_DATA)).
  vm_compute. exact I.
Qed.

Lemma merge_options_empty (data : pydict) : merge_options ∅ data = data.
Proof. unfold merge_options. apply map_fold_empty. Qed.

(** A key the record has set keeps its value. *)
Lemma merge_options_keeps (options data : pydict) (k : string) (x : value) :
  data !! k = Some x → merge_options options data !! k = Some x.
Proof. intros H. by rewrite merge_options_lookup, H. Qed.

(** An option for a key the record has set is without effect. *)
Lemma merge_options_insert_set (options data : pydict) (k : string) (v : value) :
  is_Some (data !! k) →
  merge_options (<[k := v]> options) data = merge_options (delete k options) data.
Proof.
  intros [x Hx]. apply map_eq. intros j. rewrite !merge_options_lookup.
  destruct (decide (j = k)) as [->|Hne].
  - by rewrite Hx.
  - by rewrite lookup_insert_ne, lookup_delete_ne.
Qed.

(** ** The dictionary of one record *)

Lemma for_each_names (labels : list value) (names : list string) :
  Forall2 (λ l n, subscript l "name" = inr (VStr n)) labels names →
  for_each (λ x, subscript x "name") labels = inr (VStr <$> names).
Proof.
  induction 1 as [|l n labels names Hl _ IH]; [reflexivity|].
  cbn [for_each]. rewrite Hl. cbn [mbind result_bind]. rewrite IH. reflexivity.
Qed.

Lemma strings_of_strs (names : list string) : strings_of (VStr <$> names) = inr names.
Proof.
  induction names as [|n names IH]; [reflexivity|].
  cbn [fmap list_fmap strings_of]. change (list_fmap _ _ VStr names) with (VStr <$> names).
  rewrite IH. reflexivity.
Qed.

Section ElementData.

Variable py_repr : value → string.

(** What a successful mapping has read from the record and how the
    dictionary is made of it. *)
Lemma element_data_inv self options item content data :
  element_data py_repr self options item content = inr data →
  ∃ number title state lv labels names tags login html_url avatar_url
      created_at updated_at closed_at,
    subscript item "number" = inr number
    ∧ subscript item "labels" = inr lv
    ∧ py_iter lv = inr labels
    ∧ for_each (λ x, subscript x "name") labels = inr names
    ∧ py_join "," names = inr tags
    ∧ data = list_to_map [
        ("type", default (self_need_type self) (options !! "type"));
        ("layout", default (self_layout self) (options !! "layout"));
        ("id", VStr (py_str py_repr (default (self_id_prefix self) (options !! "id_prefix"))
                       +:+ py_str py_repr number));
        ("title", title);
        ("content", VStr content);
        ("status", state);
        ("tags", VStr tags);
        ("user", login);
        ("url", html_url);
        ("avatar", avatar_url);
        ("created_at", created_at);
        ("updated_at", updated_at);
        ("closed_at", closed_at)
      ].
Proof.
  unfold element_data. intros H.
  repeat bind_succeeds H.
  injection H as <-. repeat eexists; eauto.
Qed.

(** A successful mapping sets the keys [ITEM_KEYS] and no other. *)
Lemma element_data_keys self options item content data k :
  element_data py_repr self options item content = inr data →
  is_Some (data !! k) ↔ k ∈ ITEM_KEYS.
Proof.
  intros H. apply element_data_inv in H as (?&?&?&?&?&?&?&?&?&?&?&?&?&_&_&_&_&_&->).
  rewrite <- elem_of_dom, dom_list_to_map_L, elem_of_list_to_set. reflexivity.
Qed.

(** The mapping reads three of the caller's options. *)
Lemma element_data_options self options options' item content :
  options !! "id_prefix" = options' !! "id_prefix" →
  options !! "type" = options' !! "type" →
  options !! "layout" = options' !! "layout" →
  element_data py_repr self options item content
  = element_data py_repr self options' item content.
Proof. intros H1 H2 H3. unfold element_data. by rewrite H1, H2, H3. Qed.

End ElementData.

(** ** From one record to the list of needs *)

Section Needs.

Variable textwrap_wrap : string → nat → list string.
Variable py_repr : value → string.
Variable http_get_json : string → pydict → result value.

Lemma reduce_content_options self options options' content :
  options !! "max_content_lines" = options' !! "max_content_lines" →
  reduce_content self options content = reduce_content self options' content.
Proof. intros H. unfold reduce_content. by rewrite H. Qed.

Lemma need_content_options self options options' body :
  options !! "max_content_lines" = options' !! "max_content_lines" →
  need_content textwrap_wrap self options body
  = need_content textwrap_wrap self options' body.
Proof.
  intros H. unfold need_content.
  destruct (py_splitlines body) as [e|body_lines]; [reflexivity|].
  cbn [mbind result_bind]. by rewrite (reduce_content_options _ _ _ _ H).
Qed.

(** What a successful pass through the loop body consists of. *)
Lemma need_of_item_inv self options item need :
  need_of_item textwrap_wrap py_repr self options item = inr need →
  ∃ body content data,
    subscript item "body" = inr body
    ∧ need_content textwrap_wrap self options body = inr content
    ∧ element_data py_repr self options item content = inr data
    ∧ need = merge_options options data.
Proof.
  unfold need_of_item. intros H. repeat bind_succeeds H.
  injection H as <-. eauto 10.
Qed.

(** The keys the record sets, [type] and [layout] apart, are out of the
    caller's reach. *)
Lemma need_of_item_structural_option self options item k v :
  k ∈ ITEM_KEYS → k ≠ "type" → k ≠ "layout" →
  need_of_item textwrap_wrap py_repr self (<[k := v]> options) item
  = need_of_item textwrap_wrap py_repr self (delete k options) item.
Proof.
  intros Hk Htype Hlayout.
  assert (k ≠ "max_content_lines") as Hm by (intros ->; revert Hk; compute_done).
  assert (k ≠ "id_prefix") as Hp by (intros ->; revert Hk; compute_done).
  unfold need_of_item.
  destruct (subscript item "body") as [e|body]; cbn [mbind result_bind];
    [reflexivity|].
  rewrite (need_content_options self (<[k := v]> options) (delete k options))
    by (by rewrite lookup_insert_ne, lookup_delete_ne).
  destruct (need_content textwrap_wrap self (delete k options) body)
    as [e|content]; cbn [mbind result_bind]; [reflexivity|].
  rewrite (element_data_options py_repr self (<[k := v]> options) (delete k options))
    by (by rewrite lookup_insert_ne, lookup_delete_ne).
  destruct (element_data py_repr self (delete k options) item content)
    as [e|data] eqn:Hd; cbn [mbind result_bind]; [reflexivity|].
  rewrite merge_options_insert_set; [reflexivity|].
  by apply (element_data_keys py_repr self (delete k options) item content).
Qed.

Lemma collect_needs_ext self options options' items data :
  (∀ item, need_of_item textwrap_wrap py_repr self options item
           = need_of_item textwrap_wrap py_repr self options' item) →
  collect_needs textwrap_wrap py_repr self options items data
  = collect_needs textwrap_wrap py_repr self options' items data.
Proof.
  intros H. revert data. induction items as [|item items IH]; intros data; [reflexivity|].
  cbn [collect_needs]. rewrite H.
  destruct (need_of_item _ _ _ options' item); [reflexivity|].
  cbn [mbind result_bind]. apply IH.
Qed.

(** Every need of the result is what the loop body made of a record. *)
Lemma collect_needs_elem self options items data needs need :
  collect_needs textwrap_wrap py_repr self options items data = inr needs →
  need ∈ needs →
  need ∈ data
  ∨ ∃ item, item ∈ items
      ∧ need_of_item textwrap_wrap py_repr self options item = inr need.
Proof.
  revert data. induction items as [|item items IH]; intros data H Hin.
  - injection H as <-. by left.
  - cbn [collect_needs] in H. bind_succeeds H.
    destruct (IH _ H Hin) as [Hd|(item' & Hi & Hn)].
    + apply elem_of_app in Hd as [Hd|Hd]; [by left|].
      apply list_elem_of_singleton in Hd as ->. right. exists item.
      split; [left|done].
    + right. exists item'. split; [by right|done].
Qed.

(** The records reach the result in the order of the response. *)
Lemma collect_needs_for_each self options items data :
  collect_needs textwrap_wrap py_repr self options items data
  = (needs ← for_each (need_of_item textwrap_wrap py_repr self options) items;
     mret (data ++ needs)).
Proof.
  revert data. induction items as [|item items IH]; intros data.
  - cbn. by rewrite app_nil_r.
  - cbn [collect_needs for_each].
    destruct (need_of_item _ _ _ _ item) as [e|need]; [reflexivity|].
    cbn [mbind result_bind]. rewrite IH.
    destruct (for_each _ items) as [e|needs]; [reflexivity|].
    cbn [mbind result_bind mret result_ret]. by rewrite <- app_assoc.
Qed.

Lemma _send_options self query options options' w :
  options !! "max_amount" = options' !! "max_amount" →
  _send py_repr http_get_json self query options w
  = _send py_repr http_get_json self query options' w.
Proof. intros H. unfold _send. by rewrite H. Qed.

(** A request, run step by step. *)
Lemma request_run self options w :
  request textwrap_wrap py_repr http_get_json self options w =
    let options := default ∅ options in
    let w1 := World (log w ++ [("debug", "Requesting data for service "
                                           +:+ self_name self)])
                    (net_calls w) in
    match options !! "query" with
    | None => (inl (Raise NeedGithubServiceException missing_query_message), w1)
    | Some query =>
        match _send py_repr http_get_json self query options w1 with
        | (inl e, w2) => (inl e, w2)
        | (inr response, w2) =>
            (items ← subscript response "items";
             items ← py_iter items;
             collect_needs textwrap_wrap py_repr self options items [], w2)
        end
    end.
Proof.
  unfold request. cbv zeta. unfold mbind at 1, M_bind at 1. cbn [log_entry].
  destruct (default ∅ options !! "query") as [q|]; [|reflexivity].
  unfold mbind at 1, M_bind at 1.
  destruct (_send _ _ _ _ _ _) as [[e|resp] w1]; [reflexivity|].
  cbv [mbind M_bind result_bind lift].
  destruct (subscript resp "items") as [e|lv]; [reflexivity|].
  destruct (py_iter lv) as [e|items]; reflexivity.
Qed.

(** A request reads its options through [query], [max_amount] and the
    loop body. *)
Lemma request_options_ext self (options options' : pydict) w :
  options !! "query" = options' !! "query" →
  options !! "max_amount" = options' !! "max_amount" →
  (∀ item, need_of_item textwrap_wrap py_repr self options item
           = need_of_item textwrap_wrap py_repr self options' item) →
  request textwrap_wrap py_repr http_get_json self (Some options) w
  = request textwrap_wrap py_repr http_get_json self (Some options') w.
Proof.
  intros Hq Ha Hn. rewrite !request_run. cbv zeta.
  change (default ∅ (Some options)) with options.
  change (default ∅ (Some options')) with options'.
  rewrite Hq. destruct (options' !! "query") as [q|]; [|reflexivity].
  rewrite (_send_options _ _ _ _ _ Ha).
  destruct (_send _ _ _ _ _ _) as [[e|resp] w1]; [reflexivity|].
  destruct (subscript resp "items") as [e|lv]; [reflexivity|].
  cbn [mbind result_bind].
  destruct (py_iter lv) as [e|items]; [reflexivity|].
  cbn [mbind result_bind]. by rewrite (collect_needs_ext _ _ _ _ _ Hn).
Qed.

(** A request which returns has run the loop over some list of records. *)
Lemma request_inv self options needs w w' :
  request textwrap_wrap py_repr http_get_json self options w = (inr needs, w') →
  ∃ items,
    collect_needs textwrap_wrap py_repr self (default ∅ options) items [] = inr needs.
Proof.
  rewrite request_run. cbv zeta.
  destruct (default ∅ options !! "query") as [q|]; [|discriminate].
  destruct (_send _ _ _ _ _ _) as [[e|resp] w1]; [discriminate|].
  destruct (subscript resp "items") as [e|lv]; [discriminate|].
  cbn [mbind result_bind].
  destruct (py_iter lv) as [e|items]; [discriminate|].
  cbn [mbind result_bind]. intros [= H <-]. eauto.
Qed.

(** Every need a request returns is the record's dictionary with the
    caller's options merged in. *)
Lemma request_need_inv self options needs w w' need :
  request textwrap_wrap py_repr http_get_json self options w = (inr needs, w') →
  need ∈ needs →
  ∃ item content data,
    element_data py_repr self (default ∅ options) item content = inr data
    ∧ need = merge_options (default ∅ options) data.
Proof.
  intros Hr Hin. apply request_inv in Hr as [items Hc].
  destruct (collect_needs_elem _ _ _ _ _ _ Hc Hin) as [Hnil|(item & _ & Hn)].
  - by apply elem_of_nil in Hnil.
  - apply need_of_item_inv in Hn as (body & content & data & _ & _ & Hd & ->).
    eauto.
Qed.

End Needs.

(** ** The fields of a need *)

(** C8: when a record is mapped and merged with no caller option, the
    [tags] of the need are the names of the record's labels, in the
    order of the record, joined by commas. *)
Theorem tags_are_the_joined_label_names
    (textwrap_wrap : string → nat → list string) (py_repr : value → string)
    self item need lv labels names :
  need_of_item textwrap_wrap py_repr self ∅ item = inr need →
  subscript item "labels" = inr lv →
  py_iter lv = inr labels →
  Forall2 (λ l n, subscript l "name" = inr (VStr n)) labels names →
  need !! "tags" = Some (VStr (join "," names)).
Proof.
  intros Hn Hlv Hit Hnames.
  apply need_of_item_inv in Hn as (body & content & data & _ & _ & Hd & ->).
  rewrite merge_options_empty.
  apply element_data_inv in Hd
    as (?&?&?&lv'&labels'&names'&tags&?&?&?&?&?&?&_&Hlv'&Hit'&Hfe&Hj&->).
  rewrite Hlv in Hlv'. injection Hlv' as <-.
  rewrite Hit in Hit'. injection Hit' as <-.
  rewrite (for_each_names _ _ Hnames) in Hfe. injection Hfe as <-.
  unfold py_join in Hj. rewrite strings_of_strs in Hj.
  cbn [mbind result_bind mret result_ret] in Hj. injection Hj as <-.
  reflexivity.
Qed.

(** An issue with the labels bug, ui and p1 gets the tags [bug,ui,p1]. *)
Lemma tags_are_the_joined_label_names_witness :
  ∃ need,
    need_of_item wrap_word repr_unused (issue_service ∅) ∅
      (issue_record 7 three_lines ["bug"; "ui"; "p1"]) = inr need
    ∧ need !! "tags" = Some (VStr "bug,ui,p1").
Proof.
  assert (need_of_item wrap_word repr_unused (issue_service ∅) ∅
            (issue_record 7 three_lines ["bug"; "ui"; "p1"])
          = inr (value_of ∅ (need_of_item wrap_word repr_unused (issue_service ∅) ∅
                               (issue_record 7 three_lines ["bug"; "ui"; "p1"]))))
    as Hneed by (apply succeeded_value_of; vm_compute; reflexivity).
  eexists. split; [exact Hneed|].
  apply (tags_are_the_joined_label_names wrap_word repr_unused (issue_service ∅)
           (issue_record 7 three_lines ["bug"; "ui"; "p1"]) _
           (VList ((λ n, VDict {[ "name" := VStr n ]}) <$> ["bug"; "ui"; "p1"]))
           ((λ n, VDict {[ "name" := VStr n ]}) <$> ["bug"; "ui"; "p1"])
           ["bug"; "ui"; "p1"] Hneed).
  - vm_compute; reflexivity.
  - reflexivity.
  - repeat constructor; vm_compute; reflexivity.
Defined.

(** C2: the service does merge its own configuration options into the
    need.  The request [{query: x}] returns one need, and that need has
    the field [query] with the value [x]. *)
Theorem query_option_is_merged_into_the_need :
  ∃ need,
    (request wrap_word repr_unused
       (provider (search_response [issue_record 7 three_lines ["bug"]]))
       (issue_service ∅) (Some {[ "query" := VStr "x" ]}) empty_world).1
    = inr [need]
    ∧ need !! "query" = Some (VStr "x").
Proof.
  eexists. split.
  - apply returns_one_need_first. vm_compute. reflexivity.
  - vm_compute. reflexivity.
Qed.

(** The same for every option the record does not set, the names in
    [CONFIG_OPTIONS] included: the loop tests [GITHUB_DATA]. *)
Lemma unset_option_is_merged
    (textwrap_wrap : string → nat → list string) (py_repr : value → string)
    (http_get_json : string → pydict → result value)
    self options needs w w' need k v :
  request textwrap_wrap py_repr http_get_json self options w = (inr needs, w') →
  need ∈ needs →
  default ∅ options !! k = Some v →
  k ∉ ITEM_KEYS →
  need !! k = Some v.
Proof.
  intros Hr Hin Hk Hnot.
  destruct (request_need_inv _ _ _ _ _ _ _ _ _ Hr Hin) as (item & content & data & Hd & ->).
  rewrite merge_options_lookup.
  destruct (data !! k) as [x|] eqn:Hx.
  - exfalso. apply Hnot.
    apply (element_data_keys py_repr self (default ∅ options) item content data k Hd).
    by exists x.
  - rewrite bool_decide_eq_false_2; [done|].
    intros Hg. apply Hnot. by apply GITHUB_DATA_are_item_keys.
Qed.

(** C6: an option named like a key the record sets, other than [type]
    and [layout], changes nothing in what the request returns; an
    option under a new key, neither a key of the record nor a
    configuration option, is a field of every need returned, with the
    caller's value. *)
Theorem record_keys_are_kept_and_new_keys_added
    (textwrap_wrap : string → nat → list string) (py_repr : value → string)
    (http_get_json : string → pydict → result value)
    self (options : pydict) w :
  (∀ k v,
     k ∈ ITEM_KEYS → k ≠ "type" → k ≠ "layout" →
     request textwrap_wrap py_repr http_get_json self (Some (<[k := v]> options)) w
     = request textwrap_wrap py_repr http_get_json self (Some (delete k options)) w)
  ∧ (∀ k v needs w',
       options !! k = Some v →
       k ∉ ITEM_KEYS → k ∉ CONFIG_OPTIONS →
       request textwrap_wrap py_repr http_get_json self (Some options) w
       = (inr needs, w') →
       ∀ need, need ∈ needs → need !! k = Some v).
Proof.
  split.
  - intros k v Hk Htype Hlayout.
    apply request_options_ext.
    + assert (k ≠ "query") by (intros ->; revert Hk; compute_done).
      by rewrite lookup_insert_ne, lookup_delete_ne.
    + assert (k ≠ "max_amount") by (intros ->; revert Hk; compute_done).
      by rewrite lookup_insert_ne, lookup_delete_ne.
    + intros item. by apply need_of_item_structural_option.
  - intros k v needs w' Hk Hnot _ Hr need Hin.
    by apply (unset_option_is_merged _ _ _ _ _ _ _ _ _ _ _ Hr Hin).
Qed.

(** An option [id] is without effect and an option [color] becomes a
    field of the need. *)
Lemma record_keys_are_kept_and_new_keys_added_witness :
  request wrap_word repr_unused
    (provider (search_response [issue_record 7 three_lines ["bug"]]))
    (issue_service ∅)
    (Some (<["id" := VStr "MINE"]>
             {[ "query" := VStr "x"; "color" := VStr "red" ]})) empty_world
  = request wrap_word repr_unused
      (provider (search_response [issue_record 7 three_lines ["bug"]]))
      (issue_service ∅)
      (Some (delete "id" {[ "query" := VStr "x"; "color" := VStr "red" ]}))
      empty_world
  ∧ ∃ need,
      (request wrap_word repr_unused
         (provider (search_response [issue_record 7 three_lines ["bug"]]))
         (issue_service ∅)
         (Some {[ "query" := VStr "x"; "color" := VStr "red" ]}) empty_world).1
      = inr [need]
      ∧ need !! "color" = Some (VStr "red").
Proof.
  destruct (record_keys_are_kept_and_new_keys_added wrap_word repr_unused
              (provider (search_response [issue_record 7 three_lines ["bug"]]))
              (issue_service ∅)
              {[ "query" := VStr "x"; "color" := VStr "red" ]} empty_world)
    as [Hkept Hadded].
  split.
  - apply Hkept.
    + apply (bool_decide_unpack _). vm_compute. exact I.
    + discriminate.
    + discriminate.
  - assert (returns_one_need
              (request wrap_word repr_unused
                 (provider (search_response [issue_record 7 three_lines ["bug"]]))
                 (issue_service ∅)
                 (Some {[ "query" := VStr "x"; "color" := VStr "red" ]})
                 empty_world).1 = true) as Hone by (vm_compute; reflexivity).
    apply returns_one_need_first in Hone.
    eexists. split; [exact Hone|].
    eapply (Hadded "color" (VStr "red")).
    + vm_compute. reflexivity.
    + apply (bool_decide_unpack _). vm_compute. exact I.
    + apply (bool_decide_unpack _). vm_compute. exact I.
    + apply injective_projections; [exact Hone|reflexivity].
    + left.
Defined.

(** The key [type] is set by the record's dictionary too, and yet an
    option [type] replaces the type the service is configured with. *)
Lemma type_option_changes_the_type_field :
  ∃ need need',
    (request wrap_word repr_unused
       (provider (search_response [issue_record 7 three_lines ["bug"]]))
       (issue_service ∅)
       (Some (<["type" := VStr "task"]> {[ "query" := VStr "x" ]})) empty_world).1
    = inr [need]
    ∧ (request wrap_word repr_unused
         (provider (search_response [issue_record 7 three_lines ["bug"]]))
         (issue_service ∅)
         (Some (delete "type" {[ "query" := VStr "x" ]})) empty_world).1
      = inr [need']
    ∧ "type" ∈ ITEM_KEYS
    ∧ need !! "type" = Some (VStr "task")
    ∧ need' !! "type" = Some (VStr "req").
Proof.
  do 2 eexists.
  split; [apply returns_one_need_first; vm_compute; reflexivity|].
  split; [apply returns_one_need_first; vm_compute; reflexivity|].
  split; [left|].
  split; vm_compute; reflexivity.
Qed.

(** ** The content of a need *)

(** [reduce_content] in terms of the bound in effect. *)
Lemma reduce_content_bound self options content :
  reduce_content self options content =
    (bound ← max_lines_in_effect self options;
     match bound with
     | Some max_lines =>
         mret (join nl
                 (if (max_lines <? Z.of_nat (length (splitlines content)))%Z
                  then slice_to (splitlines content) max_lines ++ [cutoff_marker]
                  else splitlines content))
     | None => mret content
     end).
Proof.
  unfold reduce_content, max_lines_in_effect.
  destruct (py_gt_zero (self_max_content_lines self)) as [e|[|]]; try reflexivity.
  cbn [mbind result_bind].
  destruct (py_int _) as [e|max_lines]; reflexivity.
Qed.

(** Without a bound in effect the content is left as it is. *)
Lemma reduce_content_unrequested self options content :
  py_gt_zero (self_max_content_lines self) = inr false →
  reduce_content self options content = inr content.
Proof. intros H. unfold reduce_content. by rewrite H. Qed.

(** With a bound in effect which is not negative, the content is cut
    to that many lines, or its lines are joined again. *)
Lemma reduce_content_requested self options content m :
  py_gt_zero (self_max_content_lines self) = inr true →
  py_int (default (self_max_content_lines self) (options !! "max_content_lines"))
    = inr m →
  (0 ≤ m)%Z →
  reduce_content self options content =
    inr (join nl (if (m <? Z.of_nat (length (splitlines content)))%Z
                  then take (Z.to_nat m) (splitlines content) ++ [cutoff_marker]
                  else splitlines content)).
Proof.
  intros Hg Hi Hm. unfold reduce_content. rewrite Hg. cbn [mbind result_bind].
  rewrite Hi. cbn [mbind result_bind]. unfold slice_to.
  by rewrite (proj2 (Z.leb_le 0 m) Hm).
Qed.

(** Every content starts with the marker of a literal block. *)
Lemma need_content_starts_with_marker
    (textwrap_wrap : string → nat → list string) self options body content :
  need_content textwrap_wrap self options body = inr content →
  ∃ block, content = code_block_marker +:+ block.
Proof.
  unfold need_content. intros H. repeat bind_succeeds H.
  injection H as <-. eauto.
Qed.

(** An empty body gives the marker alone, unless the caller asks for a
    negative number of lines. *)
Lemma need_content_of_empty_body
    (textwrap_wrap : string → nat → list string) self options m :
  max_lines_in_effect self options = inr m →
  (∀ max_lines, m = Some max_lines → (0 ≤ max_lines)%Z) →
  need_content textwrap_wrap self options (VStr "") = inr code_block_marker.
Proof.
  intros Hb Hm. unfold need_content. cbn [py_splitlines mbind result_bind mret result_ret].
  change (wrap_body textwrap_wrap (splitlines "")) with (@nil string).
  change (join (nl +:+ nl +:+ "   ") []) with "".
  rewrite reduce_content_bound, Hb. cbn [mbind result_bind].
  destruct m as [max_lines|]; [|reflexivity].
  change (splitlines "") with (@nil string). cbn [length].
  change (Z.of_nat 0) with 0%Z.
  rewrite (proj2 (Z.ltb_ge max_lines 0)) by (by apply Hm). reflexivity.
Qed.



(** C1: where the service is configured with a positive
    [max_content_lines], a positive [max_content_lines] of the caller
    takes its place: the content is cut at the caller's number of lines.
    Where the configured value is not positive the content is not
    reduced, whatever the caller asks for. *)
Theorem caller_bound_replaces_a_configured_bound
    (textwrap_wrap : string → nat → list string) (py_repr : value → string)
    self options item need body :
  need_of_item textwrap_wrap py_repr self options item = inr need →
  subscript item "body" = inr (VStr body) →
  (∀ v m,
     py_gt_zero (self_max_content_lines self) = inr true →
     options !! "max_content_lines" = Some v →
     py_int v = inr m →
     (0 < m)%Z →
     need !! "content" =
       Some (VStr (code_block_marker +:+
         join nl
           (let lines := splitlines (join (nl +:+ nl +:+ "   ")
                                       (wrap_body textwrap_wrap (splitlines body))) in
            if (m <? Z.of_nat (length lines))%Z
            then take (Z.to_nat m) lines ++ [cutoff_marker]
            else lines))))
  ∧ (py_gt_zero (self_max_content_lines self) = inr false →
     need !! "content" =
       Some (VStr (code_block_marker +:+
         join (nl +:+ nl +:+ "   ") (wrap_body textwrap_wrap (splitlines body))))).
Proof.
  intros Hn Hbody.
  apply need_of_item_inv in Hn as (body' & content & data & Hbody' & Hc & Hd & ->).
  rewrite Hbody in Hbody'. injection Hbody' as <-.
  assert (merge_options options data !! "content" = Some (VStr content)) as ->.
  { apply merge_options_keeps.
    apply element_data_inv in Hd as (?&?&?&?&?&?&?&?&?&?&?&?&?&_&_&_&_&_&->).
    reflexivity. }
  unfold need_content in Hc. cbn [py_splitlines mbind result_bind mret result_ret] in Hc.
  split.
  - intros v m Hg Hv Hi Hm.
    rewrite (reduce_content_requested self options _ m) in Hc;
      [|done|by rewrite Hv|lia].
    by injection Hc as <-.
  - intros Hg. rewrite (reduce_content_unrequested _ _ _ Hg) in Hc.
    by injection Hc as <-.
Qed.

(** With 20 lines configured and 2 asked for by the caller, the content
    is cut after two lines; with nothing configured it is not cut. *)
Lemma caller_bound_replaces_a_configured_bound_witness :
  (∃ need,
     need_of_item wrap_word repr_unused
       (issue_service {[ "max_content_lines" := VInt 20 ]})
       {[ "query" := VStr "x"; "max_content_lines" := VInt 2 ]}
       (issue_record 7 three_lines ["bug"]) = inr need
     ∧ need !! "content" =
         Some (VStr (code_block_marker +:+ join nl ["one"; ""; cutoff_marker])))
  ∧ (∃ need,
       need_of_item wrap_word repr_unused (issue_service ∅)
         {[ "query" := VStr "x" ]} (issue_record 7 three_lines ["bug"]) = inr need
       ∧ need !! "content" =
           Some (VStr (code_block_marker +:+
                         join (nl +:+ nl +:+ "   ") ["one"; "two"; "three"]))).
Proof.
  split.
  - assert (need_of_item wrap_word repr_unused
              (issue_service {[ "max_content_lines" := VInt 20 ]})
              {[ "query" := VStr "x"; "max_content_lines" := VInt 2 ]}
              (issue_record 7 three_lines ["bug"])
            = inr (value_of ∅
                     (need_of_item wrap_word repr_unused
                        (issue_service {[ "max_content_lines" := VInt 20 ]})
                        {[ "query" := VStr "x"; "max_content_lines" := VInt 2 ]}
                        (issue_record 7 three_lines ["bug"]))))
      as Hneed by (apply succeeded_value_of; vm_compute; reflexivity).
    eexists. split; [exact Hneed|].
    rewrite (proj1 (caller_bound_replaces_a_configured_bound wrap_word repr_unused
                      _ _ _ _ three_lines Hneed ltac:(vm_compute; reflexivity))
               (VInt 2) 2%Z
               ltac:(vm_compute; reflexivity) ltac:(vm_compute; reflexivity)
               ltac:(reflexivity) ltac:(reflexivity)).
    vm_compute. reflexivity.
  - assert (need_of_item wrap_word repr_unused (issue_service ∅)
              {[ "query" := VStr "x" ]} (issue_record 7 three_lines ["bug"])
            = inr (value_of ∅
                     (need_of_item wrap_word repr_unused (issue_service ∅)
                        {[ "query" := VStr "x" ]}
                        (issue_record 7 three_lines ["bug"]))))
      as Hneed by (apply succeeded_value_of; vm_compute; reflexivity).
    eexists. split; [exact Hneed|].
    rewrite (proj2 (caller_bound_replaces_a_configured_bound wrap_word repr_unused
                      _ _ _ _ three_lines Hneed ltac:(vm_compute; reflexivity))
               ltac:(vm_compute; reflexivity)).
    vm_compute. reflexivity.
Defined.

(** With the default configuration the caller's bound is not applied:
    the service has [max_content_lines = -1], the caller asks for 2
    lines, the wrapped body has 5 lines, and the content holds all of
    them and no cutoff marker. *)
Lemma caller_bound_without_a_configured_bound :
  self_max_content_lines (issue_service ∅) = VInt (-1)
  ∧ splitlines (join (nl +:+ nl +:+ "   ")
                  (wrap_body wrap_word (splitlines three_lines)))
    = ["one"; ""; "   two"; ""; "   three"]
  ∧ ∃ need,
      (request wrap_word repr_unused
         (provider (search_response [issue_record 7 three_lines ["bug"]]))
         (issue_service ∅)
         (Some {[ "query" := VStr "x"; "max_content_lines" := VInt 2 ]})
         empty_world).1 = inr [need]
      ∧ need !! "content" =
          Some (VStr (code_block_marker +:+
                        join nl ["one"; ""; "   two"; ""; "   three"]))
      ∧ need !! "content" ≠
          Some (VStr (code_block_marker +:+ join nl ["one"; ""; cutoff_marker])).
Proof.
  split; [vm_compute; reflexivity|]. split; [vm_compute; reflexivity|].
  eexists. split; [apply returns_one_need_first; vm_compute; reflexivity|].
  split; [vm_compute; reflexivity|].
  vm_compute. discriminate.
Qed.

(** C9: an empty body does not always give the marker alone.  With 5
    lines configured and [max_content_lines = -1] asked for by the
    caller, the content of an empty body is the marker of the literal
    block followed by the cutoff marker. *)
Theorem empty_body_with_negative_caller_bound :
  ∃ need,
    (request wrap_word repr_unused
       (provider (search_response [issue_record 7 "" ["bug"]]))
       (issue_service {[ "max_content_lines" := VInt 5 ]})
       (Some {[ "query" := VStr "x"; "max_content_lines" := VInt (-1) ]})
       empty_world).1 = inr [need]
    ∧ need !! "content" = Some (VStr (code_block_marker +:+ cutoff_marker))
    ∧ need !! "content" ≠ Some (VStr code_block_marker).
Proof.
  eexists. split; [apply returns_one_need_first; vm_compute; reflexivity|].
  split; [vm_compute; reflexivity|].
  vm_compute. discriminate.
Qed.

(** ** Construction *)

Section Construction.

Variable py_repr : value → string.
Variable base_type : option value.

(** The construction with a kind given as a string, on a host with a
    first need type. *)
Lemma __init___with_kind app name config kwargs k t0 types directive :
  needs_types app = t0 :: types →
  subscript t0 "directive" = inr directive →
  kwargs !! "type" = Some (VStr k) →
  (__init__ py_repr base_type app name config kwargs).2 =
    if bool_decide (k ∈ type_config_keys)
    then inr (MkService name config
                (default (VStr "https://api.github.com/") (config !! "url"))
                (default directive (config !! "need_type"))
                (default (VInt 5) (config !! "max_amount"))
                (default (VInt (-1)) (config !! "max_content_lines"))
                (default (VStr "GITHUB_") (config !! "id_prefix"))
                (default (VStr "github") (config !! "layout"))
                (VStr k))
    else inl (Raise KeyError (unsupported_type_message py_repr (VStr k))).
Proof.
  intros Ht Hd Hk. unfold __init__. rewrite Ht, Hd, Hk. cbn [snd].
  cbn [type_supported hashable mbind result_bind mret result_ret].
  by destruct (bool_decide (k ∈ type_config_keys)).
Qed.

(** C4: with a kind given, the construction succeeds exactly for the
    kinds [issue], [pr] and [commit]; for any other kind it raises a
    [KeyError] whose message names the kind and these three. *)
Theorem construction_checks_the_kind app name config kwargs k t0 types directive :
  needs_types app = t0 :: types →
  subscript t0 "directive" = inr directive →
  kwargs !! "type" = Some (VStr k) →
  (k ∈ ["issue"; "pr"; "commit"] →
     ∃ self, (__init__ py_repr base_type app name config kwargs).2 = inr self
             ∧ self_type self = VStr k)
  ∧ (k ∉ ["issue"; "pr"; "commit"] →
       (__init__ py_repr base_type app name config kwargs).2 =
         inl (Raise KeyError
                ("github type " +:+ dq +:+ k +:+ dq
                   +:+ " not supported. Use: issue, pr, commit"))).
Proof.
  intros Ht Hd Hk. rewrite (__init___with_kind _ _ _ _ _ _ _ _ Ht Hd Hk).
  change type_config_keys with ["issue"; "pr"; "commit"].
  split; intros Hin.
  - rewrite bool_decide_eq_true_2 by done. eexists. split; reflexivity.
  - rewrite bool_decide_eq_false_2 by done. reflexivity.
Qed.

End Construction.

(** The kind [pr] is accepted and the kind [graphql] refused. *)
Lemma construction_checks_the_kind_witness :
  (∃ self,
     (__init__ repr_unused None sample_app "github-prs" ∅
        {[ "type" := VStr "pr" ]}).2 = inr self
     ∧ self_type self = VStr "pr")
  ∧ (__init__ repr_unused None sample_app "github-graphql" ∅
       {[ "type" := VStr "graphql" ]}).2
    = inl (Raise KeyError
             ("github type " +:+ dq +:+ "graphql" +:+ dq
                +:+ " not supported. Use: issue, pr, commit")).
Proof.
  split.
  - apply (proj1 (construction_checks_the_kind repr_unused None sample_app
                    "github-prs" ∅ {[ "type" := VStr "pr" ]} "pr"
                    (VDict {[ "directive" := VStr "req" ]}) [] (VStr "req")
                    ltac:(reflexivity) ltac:(vm_compute; reflexivity)
                    ltac:(vm_compute; reflexivity))).
    apply (bool_decide_unpack _). vm_compute. exact I.
  - apply (proj2 (construction_checks_the_kind repr_unused None sample_app
                    "github-graphql" ∅ {[ "type" := VStr "graphql" ]} "graphql"
                    (VDict {[ "directive" := VStr "req" ]}) [] (VStr "req")
                    ltac:(reflexivity) ltac:(vm_compute; reflexivity)
                    ltac:(vm_compute; reflexivity))).
    apply (bool_decide_unpack _). vm_compute. exact I.
Defined.

(** The kind [pull-request] is not one the service knows. *)
Lemma pull_request_kind_is_refused :
  (__init__ repr_unused None sample_app "github-prs" ∅
     {[ "type" := VStr "pull-request" ]}).2
  = inl (Raise KeyError
           ("github type " +:+ dq +:+ "pull-request" +:+ dq
              +:+ " not supported. Use: issue, pr, commit")).
Proof. vm_compute. reflexivity. Qed.

(** ** The transport *)

Section Transport.

Variable py_repr : value → string.
Variable http_get_json : string → pydict → result value.

(** What [_send] does for a service with a known kind and a string as
    its url: it logs the query and sends one request. *)
Lemma _send_run self query options w kc u :
  type_config_get py_repr (self_type self) = inr kc →
  self_url self = VStr u →
  _send py_repr http_get_json self query options w =
    let q := py_str py_repr query +:+ " " +:+ kc_query kc in
    let params : pydict :=
      <["per_page" := default (self_max_amount self) (options !! "max_amount")]>
        (<["q" := VStr q]> ∅) in
    (http_get_json (u +:+ kc_url kc) params,
     World (log w ++ [("info", "Service " +:+ self_name self
                                 +:+ " requesting data for query: " +:+ q)])
           (net_calls w ++ [(u +:+ kc_url kc, params)])).
Proof.
  intros Hk Hu. unfold _send. rewrite Hk, Hu. reflexivity.
Qed.

(** Whatever the service and the options, [_send] sends no request or
    one, and the request it sends has the caller's [max_amount] as
    [per_page], the configured one if the caller gives none. *)
Lemma _send_calls self query options w :
  net_calls (_send py_repr http_get_json self query options w).2 = net_calls w
  ∨ ∃ url q,
      net_calls (_send py_repr http_get_json self query options w).2 =
        net_calls w ++
          [(url, <["per_page" := default (self_max_amount self)
                                   (options !! "max_amount")]>
                   (<["q" := VStr q]> ∅))].
Proof.
  unfold _send.
  destruct (type_config_get py_repr (self_type self)) as [e|kc]; [by left|].
  destruct (self_url self) as [| | |u| |]; try by left.
  right. eauto.
Qed.

(** C7: the [per_page] parameter of the request sent is the caller's
    [max_amount] as it is given, and the configured [max_amount] when
    the caller gives none. *)
Theorem per_page_is_the_option_or_the_default self query options w kc u :
  type_config_get py_repr (self_type self) = inr kc →
  self_url self = VStr u →
  ∃ params,
    net_calls (_send py_repr http_get_json self query options w).2
      = net_calls w ++ [(u +:+ kc_url kc, params)]
    ∧ params !! "per_page" =
        Some (match options !! "max_amount" with
              | Some limit => limit
              | None => self_max_amount self
              end).
Proof.
  intros Hk Hu. rewrite (_send_run _ _ _ _ _ _ Hk Hu). cbv zeta.
  eexists. split; [reflexivity|].
  rewrite lookup_insert_eq. by destruct (options !! "max_amount").
Qed.

End Transport.

(** Five results are asked for when the caller gives no limit, and
    three when the caller asks for three. *)
Lemma per_page_is_the_option_or_the_default_witness :
  (∃ params,
     net_calls (_send repr_unused (provider (search_response []))
                  (issue_service ∅) (VStr "bug") {[ "query" := VStr "bug" ]}
                  empty_world).2
       = [("https://api.github.com/search/issues", params)]
     ∧ params !! "per_page" = Some (VInt 5))
  ∧ (∃ params,
       net_calls (_send repr_unused (provider (search_response []))
                    (issue_service ∅) (VStr "bug")
                    {[ "query" := VStr "bug"; "max_amount" := VInt 3 ]}
                    empty_world).2
         = [("https://api.github.com/search/issues", params)]
       ∧ params !! "per_page" = Some (VInt 3)).
Proof.
  split.
  - destruct (per_page_is_the_option_or_the_default repr_unused
                (provider (search_response [])) (issue_service ∅) (VStr "bug")
                {[ "query" := VStr "bug" ]} empty_world
                (KindConfig "search/issues" "is:issue") "https://api.github.com/"
                ltac:(reflexivity) ltac:(reflexivity))
      as (params & Hcalls & Hpage).
    exists params. split; [exact Hcalls|]. rewrite Hpage. vm_compute. reflexivity.
  - destruct (per_page_is_the_option_or_the_default repr_unused
                (provider (search_response [])) (issue_service ∅) (VStr "bug")
                {[ "query" := VStr "bug"; "max_amount" := VInt 3 ]} empty_world
                (KindConfig "search/issues" "is:issue") "https://api.github.com/"
                ltac:(reflexivity) ltac:(reflexivity))
      as (params & Hcalls & Hpage).
    exists params. split; [exact Hcalls|]. rewrite Hpage. vm_compute. reflexivity.
Defined.

(** A limit of zero is sent on as it is, with five configured. *)
Lemma zero_limit_is_sent_on :
  self_max_amount (issue_service ∅) = VInt 5
  ∧ ∃ params,
      net_calls (_send repr_unused (provider (search_response []))
                   (issue_service ∅) (VStr "bug")
                   {[ "query" := VStr "bug"; "max_amount" := VInt 0 ]}
                   empty_world).2
        = [("https://api.github.com/search/issues", params)]
      ∧ params !! "per_page" = Some (VInt 0)
      ∧ params !! "per_page" ≠ Some (VInt 5).
Proof.
  split; [reflexivity|].
  eexists. split; [reflexivity|].
  split; [vm_compute; reflexivity|vm_compute; discriminate].
Qed.

(** * Further properties of the code *)

(** ** Construction and the host application *)

Section Registration.

Variable py_repr : value → string.
Variable base_type : option value.

(** The host application after a construction: as it was when the
    first need type cannot be read, with the layout registered
    otherwise. *)
Lemma __init___app app name config kwargs :
  (__init__ py_repr base_type app name config kwargs).1 =
    match needs_types app with
    | t0 :: _ =>
        match subscript t0 "directive" with
        | inr _ =>
            if bool_decide (needs_layouts app !! "github" = None)
            then MkApp (needs_types app)
                   (<["github" := GITHUB_LAYOUT]> (needs_layouts app))
            else app
        | inl _ => app
        end
    | [] => app
    end.
Proof.
  unfold __init__. destruct (needs_types app) as [|t0 types]; [reflexivity|].
  destruct (subscript t0 "directive"); reflexivity.
Qed.

(** X1: a construction registers the layout [github] when the host has
    none of that name and keeps the host's own layout of that name
    otherwise; no other layout and no need type is touched.  This holds
    whether or not the kind is accepted afterwards. *)
Theorem layout_is_registered_once app name config kwargs t0 types directive :
  needs_types app = t0 :: types →
  subscript t0 "directive" = inr directive →
  needs_types (__init__ py_repr base_type app name config kwargs).1
    = needs_types app
  ∧ needs_layouts (__init__ py_repr base_type app name config kwargs).1 !! "github"
    = Some (default GITHUB_LAYOUT (needs_layouts app !! "github"))
  ∧ ∀ l, l ≠ "github" →
      needs_layouts (__init__ py_repr base_type app name config kwargs).1 !! l
      = needs_layouts app !! l.
Proof.
  intros Ht Hd. rewrite __init___app, Ht, Hd.
  destruct (needs_layouts app !! "github") as [own|] eqn:Hown.
  - rewrite bool_decide_eq_false_2 by discriminate. by rewrite Hown.
  - rewrite bool_decide_eq_true_2 by done. cbn [needs_types needs_layouts default from_option].
    split; [done|]. split; [apply lookup_insert_eq|].
    intros l Hl. by rewrite lookup_insert_ne.
Qed.

(** X2: a second construction, of whatever service, leaves the host as
    the first one left it. *)
Theorem second_construction_keeps_the_host
    app name config kwargs name' config' kwargs' :
  (__init__ py_repr base_type
     (__init__ py_repr base_type app name config kwargs).1
     name' config' kwargs').1
  = (__init__ py_repr base_type app name config kwargs).1.
Proof.
  rewrite (__init___app app).
  destruct (needs_types app) as [|t0 types] eqn:Ht; cbv beta iota.
  { by rewrite __init___app, Ht. }
  destruct (subscript t0 "directive") as [e|directive] eqn:Hd; cbv beta iota.
  { by rewrite __init___app, Ht, Hd. }
  destruct (bool_decide (needs_layouts app !! "github" = None)) eqn:Hg;
    cbv beta iota.
  - rewrite __init___app. cbn [needs_types needs_layouts]. rewrite Hd.
    rewrite bool_decide_eq_false_2; [reflexivity|].
    rewrite lookup_insert_eq. discriminate.
  - by rewrite __init___app, Ht, Hd, Hg.
Qed.

(** X3: on a host without need types the construction raises an
    [IndexError] and registers nothing, also when the configuration
    names the need type and the kind is a supported one: the first
    need type is read before the configuration is looked at. *)
Theorem construction_needs_a_need_type app name config kwargs :
  needs_types app = [] →
  __init__ py_repr base_type app name config kwargs
  = (app, inl (Raise IndexError "list index out of range")).
Proof. intros Ht. unfold __init__. by rewrite Ht. Qed.

(** What a successful construction has read and what it has built. *)
Lemma __init___inv app name config kwargs self :
  (__init__ py_repr base_type app name config kwargs).2 = inr self →
  ∃ t0 types directive k,
    needs_types app = t0 :: types
    ∧ subscript t0 "directive" = inr directive
    ∧ (match kwargs !! "type" with Some t => Some t | None => base_type end)
      = Some (VStr k)
    ∧ k ∈ type_config_keys
    ∧ self = MkService name config
               (default (VStr "https://api.github.com/") (config !! "url"))
               (default directive (config !! "need_type"))
               (default (VInt 5) (config !! "max_amount"))
               (default (VInt (-1)) (config !! "max_content_lines"))
               (default (VStr "GITHUB_") (config !! "id_prefix"))
               (default (VStr "github") (config !! "layout"))
               (VStr k).
Proof.
  unfold __init__.
  destruct (needs_types app) as [|t0 types] eqn:Ht; [discriminate|].
  destruct (subscript t0 "directive") as [e|directive] eqn:Hd; [discriminate|].
  cbn [snd].
  destruct (match kwargs !! "type" with Some t => Some t | None => base_type end)
    as [t|] eqn:Hty; [|discriminate].
  unfold type_supported.
  destruct t as [| | |k| |]; cbn [hashable mbind result_bind mret result_ret];
    try discriminate.
  case_bool_decide as Hk; [|discriminate].
  intros [= <-]. exists t0, types, directive, k. repeat split; done.
Qed.

(** The table of kinds has an entry for every key. *)
Lemma type_config_entry k :
  k ∈ type_config_keys → ∃ kc, assoc k type_config = Some kc.
Proof.
  unfold type_config_keys, type_config. cbn [fmap list_fmap fst].
  rewrite !elem_of_cons, elem_of_nil.
  intros [->|[->|[->|[]]]]; eexists; reflexivity.
Qed.

End Registration.

(** The sample host gets the layout, also from the construction of a
    service of an unknown kind. *)
Lemma layout_is_registered_once_witness :
  needs_layouts (__init__ repr_unused None sample_app "github-graphql" ∅
                   {[ "type" := VStr "graphql" ]}).1 !! "github"
  = Some GITHUB_LAYOUT.
Proof.
  exact (proj1 (proj2 (layout_is_registered_once repr_unused None sample_app
                         "github-graphql" ∅ {[ "type" := VStr "graphql" ]}
                         (VDict {[ "directive" := VStr "req" ]}) [] (VStr "req")
                         eq_refl ltac:(vm_compute; reflexivity)))).
Defined.

(** A host whose list of need types is empty. *)
Lemma construction_needs_a_need_type_witness :
  __init__ repr_unused None (MkApp [] ∅) "github-issues"
    {[ "need_type" := VStr "spec" ]} {[ "type" := VStr "issue" ]}
  = (MkApp [] ∅, inl (Raise IndexError "list index out of range")).
Proof.
  exact (construction_needs_a_need_type repr_unused None (MkApp [] ∅)
           "github-issues" {[ "need_type" := VStr "spec" ]}
           {[ "type" := VStr "issue" ]} eq_refl).
Defined.

(** ** From the construction to the request sent *)

Section Sending.

Variable py_repr : value → string.
Variable base_type : option value.
Variable http_get_json : string → pydict → result value.

(** X4: a service which has been constructed, with a string as its url,
    sends exactly one request for a query: to the url followed by the
    path of its kind, with the caller's query followed by a blank and
    the filter of its kind as [q], and it logs that query.  Path and
    filter are those of the entry of [type_config] for the kind. *)
Theorem constructed_service_sends_one_request
    app name config kwargs self u query options w :
  (__init__ py_repr base_type app name config kwargs).2 = inr self →
  self_url self = VStr u →
  ∃ k kc,
    self_type self = VStr k
    ∧ assoc k type_config = Some kc
    ∧ _send py_repr http_get_json self query options w =
        (http_get_json (u +:+ kc_url kc)
           (<["per_page" := default (self_max_amount self) (options !! "max_amount")]>
              (<["q" := VStr (py_str py_repr query +:+ " " +:+ kc_query kc)]> ∅)),
         World (log w ++ [("info", "Service " +:+ self_name self
                                     +:+ " requesting data for query: "
                                     +:+ py_str py_repr query +:+ " "
                                     +:+ kc_query kc)])
               (net_calls w ++
                  [(u +:+ kc_url kc,
                    <["per_page" := default (self_max_amount self)
                                      (options !! "max_amount")]>
                      (<["q" := VStr (py_str py_repr query +:+ " "
                                        +:+ kc_query kc)]> ∅))])).
Proof.
  intros Hinit Hu.
  apply __init___inv in Hinit as (t0 & types & directive & k & _ & _ & _ & Hk & ->).
  destruct (type_config_entry k Hk) as [kc Hkc].
  exists k, kc. split; [reflexivity|]. split; [exact Hkc|].
  apply _send_run; [|exact Hu].
  cbn [self_type type_config_get hashable]. by rewrite Hkc.
Qed.

End Sending.

(** The service for issues sends the query [bug is:issue] to
    [search/issues]. *)
Lemma constructed_service_sends_one_request_witness :
  net_calls (_send repr_unused (provider (search_response []))
               (issue_service ∅) (VStr "bug") {[ "query" := VStr "bug" ]}
               empty_world).2
  = [("https://api.github.com/search/issues",
      <["per_page" := VInt 5]> (<["q" := VStr "bug is:issue"]> ∅))].
Proof.
  assert ((__init__ repr_unused None sample_app "github-issues" ∅
             {[ "type" := VStr "issue" ]}).2 = inr (issue_service ∅))
    as Hinit by (vm_compute; reflexivity).
  destruct (constructed_service_sends_one_request repr_unused None
              (provider (search_response [])) sample_app "github-issues" ∅
              {[ "type" := VStr "issue" ]} (issue_service ∅)
              "https://api.github.com/" (VStr "bug") {[ "query" := VStr "bug" ]}
              empty_world Hinit eq_refl)
    as (k & kc & Hk & Hkc & Hsend).
  injection Hk as <-. vm_compute in Hkc. injection Hkc as <-.
  rewrite Hsend. vm_compute. reflexivity.
Defined.

(** ** The run of a request *)

Lemma for_each_Forall2 {A B : Type} (f : A → result B) (xs : list A) (ys : list B) :
  for_each f xs = inr ys ↔ Forall2 (λ x y, f x = inr y) xs ys.
Proof.
  revert ys. induction xs as [|x xs IH]; intros ys; cbn [for_each].
  - split; [intros [= <-]; constructor|by inversion 1].
  - split.
    + intros H. destruct (f x) as [e|y] eqn:Hx; [discriminate|].
      cbn [mbind result_bind] in H.
      destruct (for_each f xs) as [e|ys'] eqn:Hxs; [discriminate|].
      injection H as <-. constructor; [done|]. by apply IH.
    + inversion 1 as [|? y ? ys' Hx Hxs]; subst. rewrite Hx.
      cbn [mbind result_bind]. apply IH in Hxs. by rewrite Hxs.
Qed.

Lemma for_each_first_failure {A B : Type} (f : A → result B)
    (good : list A) (bad : A) (rest : list A) (e : exception) :
  Forall (λ x, succeeded (f x) = true) good →
  f bad = inl e →
  for_each f (good ++ bad :: rest) = inl e.
Proof.
  intros Hgood Hbad. induction Hgood as [|x good Hx _ IH]; cbn [app for_each].
  - by rewrite Hbad.
  - destruct (f x) as [e'|y]; [discriminate|].
    cbn [mbind result_bind]. by rewrite IH.
Qed.

Section RequestRun.

Variable textwrap_wrap : string → nat → list string.
Variable py_repr : value → string.
Variable http_get_json : string → pydict → result value.

(** A request with a query, made to a service with a known kind and a
    string as url: the request to the provider is sent, and its answer
    decides how the run goes on. *)
Lemma request_sent self (options : pydict) w query kc u :
  options !! "query" = Some query →
  type_config_get py_repr (self_type self) = inr kc →
  self_url self = VStr u →
  request textwrap_wrap py_repr http_get_json self (Some options) w =
    let q := py_str py_repr query +:+ " " +:+ kc_query kc in
    let params : pydict :=
      <["per_page" := default (self_max_amount self) (options !! "max_amount")]>
        (<["q" := VStr q]> ∅) in
    let w' :=
      World (log w ++ [("debug", "Requesting data for service " +:+ self_name self);
                       ("info", "Service " +:+ self_name self
                                  +:+ " requesting data for query: " +:+ q)])
            (net_calls w ++ [(u +:+ kc_url kc, params)]) in
    match http_get_json (u +:+ kc_url kc) params with
    | inl e => (inl e, w')
    | inr response =>
        (items ← subscript response "items";
         items ← py_iter items;
         for_each (need_of_item textwrap_wrap py_repr self options) items, w')
    end.
Proof.
  intros Hq Hk Hu. rewrite request_run. cbv zeta.
  change (default ∅ (Some options)) with options. rewrite Hq.
  rewrite (_send_run py_repr http_get_json self query options _ kc u Hk Hu).
  cbv zeta. cbn [log net_calls]. rewrite <- app_assoc. cbn [app].
  destruct (http_get_json _ _) as [e|response]; [reflexivity|].
  f_equal.
  destruct (subscript response "items") as [e|lv]; [reflexivity|].
  cbn [mbind result_bind].
  destruct (py_iter lv) as [e|items]; [reflexivity|].
  cbn [mbind result_bind]. rewrite collect_needs_for_each.
  by destruct (for_each _ items).
Qed.


(** X6: a request which has a query sends one request to the provider
    and writes two entries to the log, the debug entry and the info
    entry with the query; that is so whatever the provider answers and
    whether or not the records of the answer can be mapped. *)
Theorem request_sends_once_and_logs_twice
    self (options : pydict) w query kc u :
  options !! "query" = Some query →
  type_config_get py_repr (self_type self) = inr kc →
  self_url self = VStr u →
  net_calls (request textwrap_wrap py_repr http_get_json self (Some options) w).2
    = net_calls w ++
        [(u +:+ kc_url kc,
          <["per_page" := default (self_max_amount self) (options !! "max_amount")]>
            (<["q" := VStr (py_str py_repr query +:+ " " +:+ kc_query kc)]> ∅))]
  ∧ log (request textwrap_wrap py_repr http_get_json self (Some options) w).2
    = log w ++
        [("debug", "Requesting data for service " +:+ self_name self);
         ("info", "Service " +:+ self_name self +:+ " requesting data for query: "
                    +:+ py_str py_repr query +:+ " " +:+ kc_query kc)].
Proof.
  intros Hq Hk Hu. rewrite (request_sent _ _ _ _ _ _ Hq Hk Hu). cbv zeta.
  by destruct (http_get_json _ _).
Qed.

(** X7: when the provider answers with a list of records, the request
    returns a list of needs exactly if every record can be mapped, and
    then the needs are those of the records, one for one and in the
    order of the answer. *)
Theorem needs_follow_the_records
    self (options : pydict) w query kc u response items needs :
  options !! "query" = Some query →
  type_config_get py_repr (self_type self) = inr kc →
  self_url self = VStr u →
  http_get_json (u +:+ kc_url kc)
    (<["per_page" := default (self_max_amount self) (options !! "max_amount")]>
       (<["q" := VStr (py_str py_repr query +:+ " " +:+ kc_query kc)]> ∅))
  = inr response →
  subscript response "items" = inr (VList items) →
  (request textwrap_wrap py_repr http_get_json self (Some options) w).1 = inr needs
  ↔ Forall2 (λ item need,
               need_of_item textwrap_wrap py_repr self options item = inr need)
            items needs.
Proof.
  intros Hq Hk Hu Hr Hi. rewrite (request_sent _ _ _ _ _ _ Hq Hk Hu). cbv zeta.
  rewrite Hr. cbn [fst]. rewrite Hi. cbn [mbind result_bind py_iter mret result_ret].
  apply for_each_Forall2.
Qed.

(** X8: the first record which cannot be mapped ends the request with
    its error; the needs of the records before it are not returned. *)
Theorem first_failing_record_fails_the_request
    self (options : pydict) w query kc u response good bad rest e :
  options !! "query" = Some query →
  type_config_get py_repr (self_type self) = inr kc →
  self_url self = VStr u →
  http_get_json (u +:+ kc_url kc)
    (<["per_page" := default (self_max_amount self) (options !! "max_amount")]>
       (<["q" := VStr (py_str py_repr query +:+ " " +:+ kc_query kc)]> ∅))
  = inr response →
  subscript response "items" = inr (VList (good ++ bad :: rest)) →
  Forall (λ item,
            succeeded (need_of_item textwrap_wrap py_repr self options item) = true)
         good →
  need_of_item textwrap_wrap py_repr self options bad = inl e →
  (request textwrap_wrap py_repr http_get_json self (Some options) w).1 = inl e.
Proof.
  intros Hq Hk Hu Hr Hi Hgood Hbad.
  rewrite (request_sent _ _ _ _ _ _ Hq Hk Hu). cbv zeta.
  rewrite Hr. cbn [fst]. rewrite Hi. cbn [mbind result_bind py_iter mret result_ret].
  by apply for_each_first_failure.
Qed.

(** X9: an answer of the provider which is an object without [items]
    ends the request with a [KeyError] for [items]; an answer with an
    empty list of items gives the empty list of needs. *)
Theorem answer_without_items
    self (options : pydict) w query kc u (answer : pydict) :
  options !! "query" = Some query →
  type_config_get py_repr (self_type self) = inr kc →
  self_url self = VStr u →
  http_get_json (u +:+ kc_url kc)
    (<["per_page" := default (self_max_amount self) (options !! "max_amount")]>
       (<["q" := VStr (py_str py_repr query +:+ " " +:+ kc_query kc)]> ∅))
  = inr (VDict answer) →
  (answer !! "items" = None →
     (request textwrap_wrap py_repr http_get_json self (Some options) w).1
     = inl (Raise KeyError "items"))
  ∧ (answer !! "items" = Some (VList []) →
       (request textwrap_wrap py_repr http_get_json self (Some options) w).1
       = inr []).
Proof.
  intros Hq Hk Hu Hr. rewrite (request_sent _ _ _ _ _ _ Hq Hk Hu). cbv zeta.
  rewrite Hr. cbn [fst subscript].
  split; intros ->; reflexivity.
Qed.

End RequestRun.


(** One request and two log entries also when the provider cannot be
    reached. *)
Lemma request_sends_once_and_logs_twice_witness :
  net_calls (request wrap_word repr_unused unreachable (issue_service ∅)
               (Some {[ "query" := VStr "bug" ]}) empty_world).2
  = [("https://api.github.com/search/issues",
      <["per_page" := VInt 5]> (<["q" := VStr "bug is:issue"]> ∅))]
  ∧ log (request wrap_word repr_unused unreachable (issue_service ∅)
           (Some {[ "query" := VStr "bug" ]}) empty_world).2
    = [("debug", "Requesting data for service github-issues");
       ("info", "Service github-issues requesting data for query: bug is:issue")].
Proof.
  destruct (request_sends_once_and_logs_twice wrap_word repr_unused unreachable
              (issue_service ∅) {[ "query" := VStr "bug" ]} empty_world
              (VStr "bug") issue_kind "https://api.github.com/")
    as [Hcalls Hlog]; [reflexivity..|].
  split.
  - rewrite Hcalls. vm_compute. reflexivity.
  - rewrite Hlog. vm_compute. reflexivity.
Defined.

(** Two issues give two needs, in the order of the answer. *)
Lemma needs_follow_the_records_witness :
  ∃ first second,
    (request wrap_word repr_unused (provider (search_response two_issues))
       (issue_service ∅) (Some {[ "query" := VStr "bug" ]}) empty_world).1
    = inr [first; second]
    ∧ first !! "id" = Some (VStr "GITHUB_7")
    ∧ second !! "id" = Some (VStr "GITHUB_8").
Proof.
  exists (value_of ∅ (need_of_item wrap_word repr_unused (issue_service ∅)
                        {[ "query" := VStr "bug" ]}
                        (issue_record 7 three_lines ["bug"]))),
         (value_of ∅ (need_of_item wrap_word repr_unused (issue_service ∅)
                        {[ "query" := VStr "bug" ]} (issue_record 8 "" []))).
  split; [|split; vm_compute; reflexivity].
  apply (needs_follow_the_records wrap_word repr_unused
           (provider (search_response two_issues)) (issue_service ∅)
           {[ "query" := VStr "bug" ]} empty_world (VStr "bug") issue_kind
           "https://api.github.com/" (search_response two_issues) two_issues);
    try reflexivity.
  repeat constructor; apply succeeded_value_of; vm_compute; reflexivity.
Defined.

(** The record without fields fails the request with a [KeyError] for
    [body], though the record before it can be mapped. *)
Lemma first_failing_record_fails_the_request_witness :
  (request wrap_word repr_unused (provider (search_response broken_answer))
     (issue_service ∅) (Some {[ "query" := VStr "bug" ]}) empty_world).1
  = inl (Raise KeyError "body").
Proof.
  apply (first_failing_record_fails_the_request wrap_word repr_unused
           (provider (search_response broken_answer)) (issue_service ∅)
           {[ "query" := VStr "bug" ]} empty_world (VStr "bug") issue_kind
           "https://api.github.com/" (search_response broken_answer)
           [issue_record 7 three_lines ["bug"]] (VDict ∅) [issue_record 8 "" []]);
    try reflexivity.
  constructor; [vm_compute; reflexivity|constructor].
Defined.

(** An answer which is the empty object, and an answer without hits. *)
Lemma answer_without_items_witness :
  (request wrap_word repr_unused (provider (VDict ∅)) (issue_service ∅)
     (Some {[ "query" := VStr "bug" ]}) empty_world).1
  = inl (Raise KeyError "items")
  ∧ (request wrap_word repr_unused (provider (search_response []))
       (issue_service ∅) (Some {[ "query" := VStr "bug" ]}) empty_world).1
    = inr [].
Proof.
  split.
  - destruct (answer_without_items wrap_word repr_unused (provider (VDict ∅))
                (issue_service ∅) {[ "query" := VStr "bug" ]} empty_world
                (VStr "bug") issue_kind "https://api.github.com/" ∅)
      as [Hnone _]; [reflexivity..|].
    apply Hnone. reflexivity.
  - destruct (answer_without_items wrap_word repr_unused
                (provider (search_response [])) (issue_service ∅)
                {[ "query" := VStr "bug" ]} empty_world
                (VStr "bug") issue_kind "https://api.github.com/"
                {[ "items" := VList [] ]})
      as [_ Hempty]; [reflexivity..|].
    apply Hempty. reflexivity.
Defined.

(** ** The mapping of a record *)

Section Mapping.

Variable textwrap_wrap : string → nat → list string.
Variable py_repr : value → string.

(** Everything a successful mapping has read from the record. *)
Lemma element_data_fields self options item content data :
  element_data py_repr self options item content = inr data →
  ∃ number title state lv labels names tags user login html_url avatar_url
      created_at updated_at closed_at,
    subscript item "number" = inr number
    ∧ subscript item "title" = inr title
    ∧ subscript item "state" = inr state
    ∧ subscript item "labels" = inr lv
    ∧ py_iter lv = inr labels
    ∧ for_each (λ x, subscript x "name") labels = inr names
    ∧ py_join "," names = inr tags
    ∧ subscript item "user" = inr user
    ∧ subscript user "login" = inr login
    ∧ subscript item "html_url" = inr html_url
    ∧ subscript user "avatar_url" = inr avatar_url
    ∧ subscript item "created_at" = inr created_at
    ∧ subscript item "updated_at" = inr updated_at
    ∧ subscript item "closed_at" = inr closed_at
    ∧ data = list_to_map [
        ("type", default (self_need_type self) (options !! "type"));
        ("layout", default (self_layout self) (options !! "layout"));
        ("id", VStr (py_str py_repr (default (self_id_prefix self) (options !! "id_prefix"))
                       +:+ py_str py_repr number));
        ("title", title);
        ("content", VStr content);
        ("status", state);
        ("tags", VStr tags);
        ("user", login);
        ("url", html_url);
        ("avatar", avatar_url);
        ("created_at", created_at);
        ("updated_at", updated_at);
        ("closed_at", closed_at)
      ].
Proof.
  unfold element_data. intros H.
  destruct (subscript item "number") as [|number] eqn:Hnumber; [discriminate|].
  cbn [mbind result_bind] in H.
  destruct (subscript item "title") as [|title] eqn:Htitle; [discriminate|].
  cbn [mbind result_bind] in H.
  destruct (subscript item "state") as [|state] eqn:Hstate; [discriminate|].
  cbn [mbind result_bind] in H.
  destruct (subscript item "labels") as [|lv] eqn:Hlv; [discriminate|].
  cbn [mbind result_bind] in H.
  destruct (py_iter lv) as [|labels] eqn:Hlabels; [discriminate|].
  cbn [mbind result_bind] in H.
  destruct (for_each _ labels) as [|names] eqn:Hnames; [discriminate|].
  cbn [mbind result_bind] in H.
  destruct (py_join "," names) as [|tags] eqn:Htags; [discriminate|].
  cbn [mbind result_bind] in H.
  destruct (subscript item "user") as [|user] eqn:Huser; [discriminate|].
  cbn [mbind result_bind] in H.
  destruct (subscript user "login") as [|login] eqn:Hlogin; [discriminate|].
  cbn [mbind result_bind] in H.
  destruct (subscript item "html_url") as [|html_url] eqn:Hurl; [discriminate|].
  cbn [mbind result_bind] in H.
  destruct (subscript user "avatar_url") as [|avatar_url] eqn:Havatar; [discriminate|].
  cbn [mbind result_bind] in H.
  destruct (subscript item "created_at") as [|created_at] eqn:Hcreated; [discriminate|].
  cbn [mbind result_bind] in H.
  destruct (subscript item "updated_at") as [|updated_at] eqn:Hupdated; [discriminate|].
  cbn [mbind result_bind] in H.
  destruct (subscript item "closed_at") as [|closed_at] eqn:Hclosed; [discriminate|].
  cbn [mbind result_bind] in H. injection H as <-.
  exists number, title, state, lv, labels, names, tags, user, login, html_url,
    avatar_url, created_at, updated_at, closed_at.
  repeat split; done.
Qed.

(** X10: the fields of a need which come from the record are the
    fields of the record as they are: title, state, page, the three
    dates, and the login and the picture of the user.  No option of the
    caller changes any of them. *)
Theorem record_fields_are_projected self options item need :
  need_of_item textwrap_wrap py_repr self options item = inr need →
  (∀ field key, (field, key) ∈ PROJECTED_FIELDS →
     ∃ v, subscript item key = inr v ∧ need !! field = Some v)
  ∧ ∃ user login avatar_url,
      subscript item "user" = inr user
      ∧ subscript user "login" = inr login
      ∧ subscript user "avatar_url" = inr avatar_url
      ∧ need !! "user" = Some login
      ∧ need !! "avatar" = Some avatar_url.
Proof.
  intros Hn.
  apply need_of_item_inv in Hn as (body & content & data & _ & _ & Hd & ->).
  apply element_data_fields in Hd
    as (number & title & state & lv & labels & names & tags & user & login
        & html_url & avatar_url & created_at & updated_at & closed_at
        & Hnumber & Htitle & Hstate & _ & _ & _ & _ & Huser & Hlogin & Hurl
        & Havatar & Hcreated & Hupdated & Hclosed & ->).
  split.
  - intros field key Hin. unfold PROJECTED_FIELDS in Hin.
    rewrite !elem_of_cons, elem_of_nil in Hin.
    destruct Hin as [[= -> ->]|[[= -> ->]|[[= -> ->]|[[= -> ->]|[[= -> ->]|[[= -> ->]|[]]]]]]];
      eexists; (split; [eassumption|]); by apply merge_options_keeps.
  - exists user, login, avatar_url. repeat split; try done;
      by apply merge_options_keeps.
Qed.

(** X11: the [id] of a need is the prefix followed by the number of the
    record in decimal digits, and the prefix, the type and the layout
    are those of the caller's options [id_prefix], [type] and [layout]
    where the caller gives them, those of the configuration where not. *)
Theorem caller_options_precede_the_configuration
    self options item need number prefix :
  need_of_item textwrap_wrap py_repr self options item = inr need →
  subscript item "number" = inr (VInt number) →
  default (self_id_prefix self) (options !! "id_prefix") = VStr prefix →
  need !! "id" = Some (VStr (prefix +:+ string_of_Z number))
  ∧ need !! "type" = Some (default (self_need_type self) (options !! "type"))
  ∧ need !! "layout" = Some (default (self_layout self) (options !! "layout")).
Proof.
  intros Hn Hnumber Hprefix.
  apply need_of_item_inv in Hn as (body & content & data & _ & _ & Hd & ->).
  apply element_data_fields in Hd
    as (number' & ? & ? & ? & ? & ? & ? & ? & ? & ? & ? & ? & ? & ?
        & Hnumber' & _ & _ & _ & _ & _ & _ & _ & _ & _ & _ & _ & _ & _ & ->).
  rewrite Hnumber in Hnumber'. injection Hnumber' as <-.
  rewrite Hprefix. repeat split; by apply merge_options_keeps.
Qed.

(** X12: a record which lacks one of the keys the loop body reads is
    not mapped to a need: no value is put in the place of a missing
    field. *)
Theorem record_without_a_field_is_not_mapped self options (record : pydict) k :
  k ∈ RECORD_KEYS →
  record !! k = None →
  succeeded (need_of_item textwrap_wrap py_repr self options (VDict record)) = false.
Proof.
  intros Hk Hnone.
  destruct (need_of_item textwrap_wrap py_repr self options (VDict record))
    as [e|need] eqn:Hn; [reflexivity|]. exfalso.
  apply need_of_item_inv in Hn as (body & content & data & Hbody & _ & Hd & _).
  apply element_data_fields in Hd
    as (? & ? & ? & ? & ? & ? & ? & ? & ? & ? & ? & ? & ? & ?
        & Hnumber & Htitle & Hstate & Hlabels & _ & _ & _ & Huser & _ & Hurl
        & _ & Hcreated & Hupdated & Hclosed & _).
  unfold RECORD_KEYS in Hk. rewrite !elem_of_cons, elem_of_nil in Hk.
  cbn [subscript] in *.
  destruct Hk as [->|[->|[->|[->|[->|[->|[->|[->|[->|[->|[]]]]]]]]]]];
    rewrite Hnone in *; discriminate.
Qed.

(** X13: a record whose body is not a string (the provider gives [null]
    for an issue without text) ends the mapping with an
    [AttributeError]. *)
Theorem body_must_be_a_string self options item body :
  subscript item "body" = inr body →
  (∀ s, body ≠ VStr s) →
  ∃ arg, need_of_item textwrap_wrap py_repr self options item
         = inl (Raise AttributeError arg).
Proof.
  intros Hbody Hstr. unfold need_of_item, need_content. rewrite Hbody.
  cbn [mbind result_bind].
  destruct body as [| | |s| |]; try (eexists; reflexivity). by destruct (Hstr s).
Qed.

End Mapping.

(** The sample issue is open and was written by octocat. *)
Lemma record_fields_are_projected_witness :
  ∃ need,
    need_of_item wrap_word repr_unused (issue_service ∅)
      {[ "query" := VStr "bug"; "status" := VStr "closed" ]}
      (issue_record 7 three_lines ["bug"]) = inr need
    ∧ need !! "status" = Some (VStr "open")
    ∧ need !! "user" = Some (VStr "octocat").
Proof.
  assert (need_of_item wrap_word repr_unused (issue_service ∅)
            {[ "query" := VStr "bug"; "status" := VStr "closed" ]}
            (issue_record 7 three_lines ["bug"])
          = inr (value_of ∅
                   (need_of_item wrap_word repr_unused (issue_service ∅)
                      {[ "query" := VStr "bug"; "status" := VStr "closed" ]}
                      (issue_record 7 three_lines ["bug"]))))
    as Hneed by (apply succeeded_value_of; vm_compute; reflexivity).
  eexists. split; [exact Hneed|].
  destruct (record_fields_are_projected wrap_word repr_unused _ _ _ _ Hneed)
    as [Hfields (user & login & avatar_url & Huser & Hlogin & _ & Hu & _)].
  split.
  - destruct (Hfields "status" "state") as (v & Hv & Hstatus).
    + apply (bool_decide_unpack _). vm_compute. exact I.
    + rewrite Hstatus. vm_compute in Hv. by injection Hv as <-.
  - rewrite Hu. vm_compute in Huser. injection Huser as <-.
    vm_compute in Hlogin. by injection Hlogin as <-.
Defined.

(** Record 7 gets the id [GITHUB_7], and [GH_7] when the caller asks
    for the prefix [GH_]. *)
Lemma caller_options_precede_the_configuration_witness :
  (∃ need,
     need_of_item wrap_word repr_unused (issue_service ∅)
       {[ "query" := VStr "bug" ]} (issue_record 7 three_lines ["bug"]) = inr need
     ∧ need !! "id" = Some (VStr "GITHUB_7"))
  ∧ (∃ need,
       need_of_item wrap_word repr_unused (issue_service ∅)
         {[ "query" := VStr "bug"; "id_prefix" := VStr "GH_" ]}
         (issue_record 7 three_lines ["bug"]) = inr need
       ∧ need !! "id" = Some (VStr "GH_7")).
Proof.
  split.
  - assert (need_of_item wrap_word repr_unused (issue_service ∅)
              {[ "query" := VStr "bug" ]} (issue_record 7 three_lines ["bug"])
            = inr (value_of ∅
                     (need_of_item wrap_word repr_unused (issue_service ∅)
                        {[ "query" := VStr "bug" ]}
                        (issue_record 7 three_lines ["bug"]))))
      as Hneed by (apply succeeded_value_of; vm_compute; reflexivity).
    eexists. split; [exact Hneed|].
    rewrite (proj1 (caller_options_precede_the_configuration wrap_word repr_unused
                      _ _ _ _ 7%Z "GITHUB_" Hneed
                      ltac:(vm_compute; reflexivity) ltac:(vm_compute; reflexivity))).
    vm_compute. reflexivity.
  - assert (need_of_item wrap_word repr_unused (issue_service ∅)
              {[ "query" := VStr "bug"; "id_prefix" := VStr "GH_" ]}
              (issue_record 7 three_lines ["bug"])
            = inr (value_of ∅
                     (need_of_item wrap_word repr_unused (issue_service ∅)
                        {[ "query" := VStr "bug"; "id_prefix" := VStr "GH_" ]}
                        (issue_record 7 three_lines ["bug"]))))
      as Hneed by (apply succeeded_value_of; vm_compute; reflexivity).
    eexists. split; [exact Hneed|].
    rewrite (proj1 (caller_options_precede_the_configuration wrap_word repr_unused
                      _ _ _ _ 7%Z "GH_" Hneed
                      ltac:(vm_compute; reflexivity) ltac:(vm_compute; reflexivity))).
    vm_compute. reflexivity.
Defined.

(** The record without fields has no body. *)
Lemma record_without_a_field_is_not_mapped_witness :
  succeeded (need_of_item wrap_word repr_unused (issue_service ∅)
               {[ "query" := VStr "bug" ]} (VDict ∅)) = false.
Proof.
  apply (record_without_a_field_is_not_mapped wrap_word repr_unused
           (issue_service ∅) {[ "query" := VStr "bug" ]} ∅ "body").
  - apply (bool_decide_unpack _). vm_compute. exact I.
  - reflexivity.
Defined.

(** The sample issue with [null] as its body. *)
Lemma body_must_be_a_string_witness :
  ∃ arg,
    need_of_item wrap_word repr_unused (issue_service ∅) {[ "query" := VStr "bug" ]}
      (with_field "body" VNone (issue_record 7 three_lines ["bug"]))
    = inl (Raise AttributeError arg).
Proof.
  apply (body_must_be_a_string wrap_word repr_unused (issue_service ∅)
           {[ "query" := VStr "bug" ]}
           (with_field "body" VNone (issue_record 7 three_lines ["bug"])) VNone).
  - vm_compute. reflexivity.
  - discriminate.
Defined.

(** ** Strings and lines *)

Lemma append_cons (c : ascii) (a b : string) :
  String c a +:+ b = String c (a +:+ b).
Proof. reflexivity. Qed.

Lemma append_nil_r (s : string) : s +:+ "" = s.
Proof.
  induction s as [|c s IH]; [reflexivity|]. by rewrite append_cons, IH.
Qed.

Lemma append_assoc (a b c : string) : (a +:+ b) +:+ c = a +:+ (b +:+ c).
Proof.
  induction a as [|x a IH]; [reflexivity|]. by rewrite !append_cons, IH.
Qed.

Lemma chars_app (a b : string) : chars (a +:+ b) = chars a ++ chars b.
Proof.
  induction a as [|x a IH]; [reflexivity|].
  rewrite append_cons. unfold chars in *. cbn [String.list_ascii_of_string app].
  by rewrite IH.
Qed.

Lemma chars_nil (s : string) : chars s = [] → s = "".
Proof. by destruct s. Qed.

Lemma join_cons (sep x : string) (rest : list string) :
  rest ≠ [] → join sep (x :: rest) = x +:+ sep +:+ join sep rest.
Proof. by destruct rest. Qed.

Lemma breakfree_snoc (cur : string) (c : ascii) :
  breakfree cur → is_linebreak c = false → breakfree (cur +:+ String c "").
Proof.
  intros Hcur Hc. unfold breakfree. rewrite chars_app.
  apply Forall_app. split; [done|]. by repeat constructor.
Qed.

(** A text which is not empty has a line. *)
Lemma splitlines_from_nonempty (cur s : string) :
  cur ≠ "" ∨ s ≠ "" → splitlines_from cur s ≠ [].
Proof.
  revert cur. induction s as [|c rest IH]; intros cur H; cbn [splitlines_from].
  - destruct H as [H|H]; [|done]. by rewrite bool_decide_eq_false_2.
  - destruct (is_linebreak c); [done|]. apply IH. left. by destruct cur.
Qed.

(** The lines of a text have no line boundary in them. *)
Lemma splitlines_from_breakfree (n : nat) (cur s : string) :
  String.length s ≤ n → breakfree cur → Forall breakfree (splitlines_from cur s).
Proof.
  revert cur s. induction n as [|n IH]; intros cur s Hlen Hcur.
  - destruct s; [|cbn in Hlen; lia]. cbn [splitlines_from].
    case_bool_decide; [constructor|]. by repeat constructor.
  - destruct s as [|c rest]; cbn [splitlines_from].
    + case_bool_decide; [constructor|]. by repeat constructor.
    + cbn [String.length] in Hlen. destruct (is_linebreak c) eqn:Hc.
      * constructor; [done|].
        destruct rest as [|c' rest']; [constructor|].
        cbn [String.length] in Hlen.
        destruct (N.eqb (ord c) 13 && N.eqb (ord c') 10).
        -- apply IH; [lia|constructor].
        -- apply IH; [cbn [String.length]; lia|constructor].
      * apply IH; [lia|]. by apply breakfree_snoc.
Qed.

Lemma splitlines_breakfree (s : string) : Forall breakfree (splitlines s).
Proof. apply (splitlines_from_breakfree (String.length s)); [done|constructor]. Qed.

Lemma breakfree_only_newline_breaks (s : string) :
  breakfree s → only_newline_breaks s.
Proof.
  unfold breakfree, only_newline_breaks. intros H.
  eapply Forall_impl; [exact H|]. intros c Hc Hbreak. congruence.
Qed.

Lemma breakfree_ends (s : string) : breakfree s → ends_with_newline s = false.
Proof.
  unfold breakfree. induction s as [|c rest IH]; [reflexivity|].
  unfold chars. cbn [String.list_ascii_of_string]. intros H.
  apply Forall_cons in H as [Hc Hrest]. cbn [ends_with_newline].
  destruct rest as [|c' rest']; [|by apply IH].
  destruct (N.eqb (ord c) 10) eqn:H10; [|reflexivity].
  apply N.eqb_eq in H10. unfold is_linebreak in Hc. rewrite H10 in Hc.
  discriminate.
Qed.

Lemma only_newline_breaks_app (a b : string) :
  only_newline_breaks a → only_newline_breaks b → only_newline_breaks (a +:+ b).
Proof.
  unfold only_newline_breaks. rewrite chars_app. intros. by apply Forall_app.
Qed.

Lemma only_newline_breaks_join (sep : string) (parts : list string) :
  only_newline_breaks sep → Forall only_newline_breaks parts →
  only_newline_breaks (join sep parts).
Proof.
  intros Hsep. induction 1 as [|x parts Hx Hparts IH]; [constructor|].
  destruct parts as [|y parts]; [exact Hx|].
  rewrite join_cons by done. by repeat apply only_newline_breaks_app.
Qed.

Lemma ends_with_newline_app (a b : string) :
  ends_with_newline a = false → ends_with_newline b = false →
  ends_with_newline (a +:+ b) = false.
Proof.
  intros Ha Hb. induction a as [|c a IH]; [exact Hb|].
  rewrite append_cons. cbn [ends_with_newline] in *.
  destruct a as [|c' a'].
  - change ("" +:+ b) with b. destruct b; [exact Ha|exact Hb].
  - rewrite append_cons in *. by apply IH.
Qed.

Lemma ends_with_newline_join (sep : string) (parts : list string) :
  ends_with_newline sep = false →
  Forall (λ part, ends_with_newline part = false) parts →
  ends_with_newline (join sep parts) = false.
Proof.
  intros Hsep. induction 1 as [|x parts Hx Hparts IH]; [reflexivity|].
  destruct parts as [|y parts]; [exact Hx|].
  rewrite join_cons by done. by repeat apply ends_with_newline_app.
Qed.

(** A text whose only line boundaries are newlines, and which does not
    end with one, is its lines joined by newlines. *)
Lemma join_splitlines_from (cur s : string) :
  only_newline_breaks s → ends_with_newline s = false →
  join nl (splitlines_from cur s) = cur +:+ s.
Proof.
  revert cur. induction s as [|c rest IH]; intros cur Hs He.
  - cbn [splitlines_from]. rewrite append_nil_r.
    case_bool_decide as Hcur; [by rewrite Hcur|reflexivity].
  - unfold only_newline_breaks, chars in Hs.
    cbn [String.list_ascii_of_string] in Hs.
    apply Forall_cons in Hs as [Hc Hrest].
    cbn [splitlines_from]. destruct (is_linebreak c) eqn:Hbreak.
    + rewrite (Hc eq_refl) in *. clear Hc Hbreak.
      destruct rest as [|c' rest']; [discriminate He|].
      change (N.eqb (ord LF) 13) with false. cbn [andb].
      rewrite join_cons
        by (apply splitlines_from_nonempty; by right).
      rewrite (IH "" Hrest He). reflexivity.
    + rewrite IH; [by rewrite append_assoc|done|].
      cbn [ends_with_newline] in He. by destruct rest.
Qed.

Lemma join_splitlines (s : string) :
  only_newline_breaks s → ends_with_newline s = false →
  join nl (splitlines s) = s.
Proof. apply (join_splitlines_from ""). Qed.

(** A line of white space has nothing left when it is stripped. *)
Lemma lstrip_blank (s : string) : blank s → lstrip s = "".
Proof.
  unfold blank, chars. induction s as [|c rest IH]; [reflexivity|].
  cbn [String.list_ascii_of_string lstrip]. intros H.
  apply Forall_cons in H as [-> Hrest]. by apply IH.
Qed.

Lemma strip_blank (s : string) : blank s → strip s = "".
Proof. intros H. unfold strip. by rewrite (lstrip_blank s H). Qed.

Lemma wrap_body_blank (textwrap_wrap : string → nat → list string)
    (body_lines : list string) :
  Forall blank body_lines → wrap_body textwrap_wrap body_lines = [].
Proof.
  unfold wrap_body. induction 1 as [|line body_lines Hline _ IH]; [reflexivity|].
  rewrite filter_cons_False; [exact IH|].
  intros Hne. apply Hne. by apply strip_blank.
Qed.

Lemma separator_only_newline_breaks :
  only_newline_breaks (nl +:+ "   ") ∧ only_newline_breaks (nl +:+ nl +:+ "   ").
Proof.
  split; repeat (constructor;
    [intros H; first [reflexivity|vm_compute in H; discriminate H]|]);
    constructor.
Qed.

Lemma pieces_from_breakfree (width room : nat) (cur s : string) :
  breakfree cur → breakfree s → Forall breakfree (pieces_from width room cur s).
Proof.
  revert room cur. induction s as [|c rest IH]; intros room cur Hcur Hs;
    cbn [pieces_from].
  - case_bool_decide; [constructor|]. by repeat constructor.
  - unfold breakfree, chars in Hs. cbn [String.list_ascii_of_string] in Hs.
    apply Forall_cons in Hs as [Hc Hrest].
    destruct room as [|room].
    + constructor; [done|]. apply IH; [|done]. by repeat constructor.
    + apply IH; [|done]. by apply breakfree_snoc.
Qed.

(** The sample wrapping of a line without line boundary gives pieces
    without line boundary, as [textwrap.wrap] does. *)
Lemma wrap_word_breakfree (line : string) (width : nat) :
  breakfree line → Forall breakfree (wrap_word line width).
Proof.
  intros H. unfold wrap_word. destruct width; [constructor|].
  apply pieces_from_breakfree; [constructor|done].
Qed.

(** ** The content within its bound *)

Section Content.

Variable textwrap_wrap : string → nat → list string.

(** The wrapped content of a body has newlines as its only line
    boundaries and does not end with one, when wrapping a line brings
    no line boundary into it. *)
Lemma wrapped_content_is_tidy (body : string) :
  (∀ line, breakfree line → Forall breakfree (textwrap_wrap line wrap_width)) →
  only_newline_breaks
    (join (nl +:+ nl +:+ "   ") (wrap_body textwrap_wrap (splitlines body)))
  ∧ ends_with_newline
      (join (nl +:+ nl +:+ "   ") (wrap_body textwrap_wrap (splitlines body)))
    = false.
Proof.
  intros Hwrap. destruct separator_only_newline_breaks as [Hsep Hsep'].
  assert (Forall (λ block, only_newline_breaks block
                           ∧ ends_with_newline block = false)
            (wrap_body textwrap_wrap (splitlines body))) as Hblocks.
  { unfold wrap_body. apply Forall_fmap, Forall_forall.
    intros line Hin. apply list_elem_of_filter in Hin as [_ Hin].
    pose proof (proj1 (Forall_forall _ _) (splitlines_breakfree body) line Hin)
      as Hline.
    cbn. split.
    - apply only_newline_breaks_join; [done|].
      eapply Forall_impl; [apply (Hwrap line Hline)|].
      apply breakfree_only_newline_breaks.
    - apply ends_with_newline_join; [reflexivity|].
      eapply Forall_impl; [apply (Hwrap line Hline)|].
      apply breakfree_ends. }
  split.
  - apply only_newline_breaks_join; [done|].
    eapply Forall_impl; [exact Hblocks|]. by intros ? [? ?].
  - apply ends_with_newline_join; [reflexivity|].
    eapply Forall_impl; [exact Hblocks|]. by intros ? [? ?].
Qed.

(** X14: where no bound is in effect, or the wrapped content has no
    more lines than the bound, the content of the need is the marker of
    the literal block followed by the wrapped lines of the body: no
    line is lost and no cutoff marker is added.  (Wrapping brings no
    line boundary into a line, as [textwrap.wrap] does not.) *)
Theorem content_within_the_bound_is_kept self options body bound :
  (∀ line, breakfree line → Forall breakfree (textwrap_wrap line wrap_width)) →
  max_lines_in_effect self options = inr bound →
  (∀ m, bound = Some m →
     (Z.of_nat (length (splitlines
                          (join (nl +:+ nl +:+ "   ")
                             (wrap_body textwrap_wrap (splitlines body))))) ≤ m)%Z) →
  need_content textwrap_wrap self options (VStr body)
  = inr (code_block_marker +:+
           join (nl +:+ nl +:+ "   ") (wrap_body textwrap_wrap (splitlines body))).
Proof.
  intros Hwrap Hbound Hlen. unfold need_content.
  cbn [py_splitlines mbind result_bind mret result_ret].
  rewrite reduce_content_bound, Hbound. cbn [mbind result_bind].
  destruct bound as [m|]; [|reflexivity].
  rewrite (proj2 (Z.ltb_ge _ _) (Hlen m eq_refl)).
  destruct (wrapped_content_is_tidy body Hwrap) as [Hbreaks Hend].
  cbn [mret result_ret]. by rewrite (join_splitlines _ Hbreaks Hend).
Qed.

(** X15: a body all of whose lines are white space gives the marker of
    the literal block and nothing after it, unless a negative bound is
    in effect. *)
Theorem blank_body_gives_the_marker self options body bound :
  max_lines_in_effect self options = inr bound →
  (∀ m, bound = Some m → (0 ≤ m)%Z) →
  Forall blank (splitlines body) →
  need_content textwrap_wrap self options (VStr body) = inr code_block_marker.
Proof.
  intros Hbound Hm Hblank. unfold need_content.
  cbn [py_splitlines mbind result_bind mret result_ret].
  rewrite (wrap_body_blank _ _ Hblank).
  change (join (nl +:+ nl +:+ "   ") []) with "".
  rewrite reduce_content_bound, Hbound. cbn [mbind result_bind].
  destruct bound as [m|]; [|reflexivity].
  change (splitlines "") with (@nil string). cbn [length].
  change (Z.of_nat 0) with 0%Z.
  rewrite (proj2 (Z.ltb_ge m 0)) by (by apply Hm). reflexivity.
Qed.


(** X17: the need of a record is the dictionary of the record with the
    caller's options added: where both have a key the value of the
    record stays. *)
Theorem need_is_the_record_with_the_options (py_repr : value → string)
    self options item need :
  need_of_item textwrap_wrap py_repr self options item = inr need →
  ∃ content data,
    element_data py_repr self options item content = inr data
    ∧ need = data ∪ options.
Proof.
  intros Hn.
  apply need_of_item_inv in Hn as (body & content & data & _ & _ & Hd & ->).
  exists content, data. split; [exact Hd|].
  apply map_eq. intros k. rewrite merge_options_lookup, lookup_union.
  destruct (data !! k) as [x|] eqn:Hx.
  - by destruct (options !! k).
  - rewrite bool_decide_eq_false_2.
    + by destruct (options !! k).
    + intros Hg. apply GITHUB_DATA_are_item_keys in Hg.
      apply (element_data_keys py_repr self options item content data k Hd) in Hg.
      rewrite Hx in Hg. by destruct Hg.
Qed.

End Content.

(** Three lines within a bound of twenty. *)
Lemma content_within_the_bound_is_kept_witness :
  need_content wrap_word (issue_service {[ "max_content_lines" := VInt 20 ]})
    {[ "query" := VStr "bug" ]} (VStr three_lines)
  = inr (code_block_marker +:+
           join (nl +:+ nl +:+ "   ") ["one"; "two"; "three"]).
Proof.
  rewrite (content_within_the_bound_is_kept wrap_word
             (issue_service {[ "max_content_lines" := VInt 20 ]})
             {[ "query" := VStr "bug" ]} three_lines (Some 20%Z)).
  - vm_compute. reflexivity.
  - intros line. apply wrap_word_breakfree.
  - vm_compute. reflexivity.
  - intros m [= <-]. vm_compute. discriminate.
Defined.

(** Two lines of white space. *)
Lemma blank_body_gives_the_marker_witness :
  need_content wrap_word (issue_service ∅) {[ "query" := VStr "bug" ]}
    (VStr blank_lines)
  = inr code_block_marker.
Proof.
  apply (blank_body_gives_the_marker wrap_word (issue_service ∅)
           {[ "query" := VStr "bug" ]} blank_lines None).
  - vm_compute. reflexivity.
  - discriminate.
  - change (splitlines blank_lines) with ["  "; " "].
    repeat constructor.
Defined.


(** The need of the sample issue for a caller who adds a colour. *)
Lemma need_is_the_record_with_the_options_witness :
  ∃ content data,
    element_data repr_unused (issue_service ∅)
      {[ "query" := VStr "bug"; "color" := VStr "red" ]}
      (issue_record 7 three_lines ["bug"]) content = inr data
    ∧ value_of ∅ (need_of_item wrap_word repr_unused (issue_service ∅)
                    {[ "query" := VStr "bug"; "color" := VStr "red" ]}
                    (issue_record 7 three_lines ["bug"]))
      = data ∪ {[ "query" := VStr "bug"; "color" := VStr "red" ]}.
Proof.
  apply (need_is_the_record_with_the_options wrap_word repr_unused
           (issue_service ∅) {[ "query" := VStr "bug"; "color" := VStr "red" ]}
           (issue_record 7 three_lines ["bug"])).
  apply succeeded_value_of. vm_compute. reflexivity.
Defined.

(** ** More on the content and on the construction *)

(** X18: the content of every need a request returns starts with the
    marker of a literal block, whatever the body of the record and the
    options. *)
Theorem every_content_is_a_literal_block
    (textwrap_wrap : string → nat → list string) (py_repr : value → string)
    (http_get_json : string → pydict → result value)
    self options needs w w' need :
  request textwrap_wrap py_repr http_get_json self options w = (inr needs, w') →
  need ∈ needs →
  ∃ block, need !! "content" = Some (VStr (code_block_marker +:+ block)).
Proof.
  intros Hr Hin. apply request_inv in Hr as [items Hc].
  destruct (collect_needs_elem _ _ _ _ _ _ _ _ Hc Hin) as [Hnil|(item & _ & Hn)];
    [by apply elem_of_nil in Hnil|].
  apply need_of_item_inv in Hn as (body & content & data & _ & Hcontent & Hd & ->).
  apply need_content_starts_with_marker in Hcontent as [block ->].
  exists block. apply merge_options_keeps.
  apply element_data_inv in Hd as (?&?&?&?&?&?&?&?&?&?&?&?&?&_&_&_&_&_&->).
  reflexivity.
Qed.

(** The content of the need of the sample issue. *)
Lemma every_content_is_a_literal_block_witness :
  ∃ block,
    first_need (request wrap_word repr_unused
                  (provider (search_response [issue_record 7 three_lines ["bug"]]))
                  (issue_service ∅) (Some {[ "query" := VStr "bug" ]})
                  empty_world).1 !! "content"
    = Some (VStr (code_block_marker +:+ block)).
Proof.
  assert (returns_one_need
            (request wrap_word repr_unused
               (provider (search_response [issue_record 7 three_lines ["bug"]]))
               (issue_service ∅) (Some {[ "query" := VStr "bug" ]})
               empty_world).1 = true) as Hone by (vm_compute; reflexivity).
  apply returns_one_need_first in Hone.
  eapply (every_content_is_a_literal_block wrap_word repr_unused
            (provider (search_response [issue_record 7 three_lines ["bug"]]))
            (issue_service ∅) (Some {[ "query" := VStr "bug" ]})).
  - apply injective_projections; [exact Hone|reflexivity].
  - left.
Defined.

(** X19: a bound in effect which is negative does not leave the content
    as it is: the last lines of the content, as many as the bound says,
    are dropped and the cutoff marker is added, also to a content
    without lines.  A bound of zero in effect drops every line of a
    content which has one. *)
Theorem bound_which_is_not_positive self options content m :
  max_lines_in_effect self options = inr (Some m) →
  ((m < 0)%Z →
     reduce_content self options content =
       inr (join nl
              (take (length (splitlines content) - Z.to_nat (- m))
                 (splitlines content) ++ [cutoff_marker])))
  ∧ (m = 0%Z → splitlines content ≠ [] →
       reduce_content self options content = inr (join nl [cutoff_marker])).
Proof.
  intros Hbound. rewrite reduce_content_bound, Hbound.
  cbn [mbind result_bind mret result_ret]. split.
  - intros Hm. rewrite (proj2 (Z.ltb_lt _ _)) by lia.
    unfold slice_to. rewrite (proj2 (Z.leb_gt 0 m)) by lia.
    replace (Z.to_nat (Z.of_nat (length (splitlines content)) + m))
      with (length (splitlines content) - Z.to_nat (- m)) by lia.
    reflexivity.
  - intros -> Hlines. rewrite (proj2 (Z.ltb_lt _ _)).
    + reflexivity.
    + destruct (splitlines content); [done|]. cbn [length]. lia.
Qed.

(** With twenty lines configured and [-1] asked for, the last of the
    five lines is dropped and the cut is marked. *)
Lemma bound_which_is_not_positive_witness :
  reduce_content (issue_service {[ "max_content_lines" := VInt 20 ]})
    {[ "query" := VStr "bug"; "max_content_lines" := VInt (-1) ]}
    (join (nl +:+ nl +:+ "   ") (wrap_body wrap_word (splitlines three_lines)))
  = inr (join nl ["one"; ""; "   two"; ""; cutoff_marker])
  ∧ reduce_content (issue_service {[ "max_content_lines" := VInt 20 ]})
      {[ "query" := VStr "bug"; "max_content_lines" := VInt 0 ]}
      (join (nl +:+ nl +:+ "   ") (wrap_body wrap_word (splitlines three_lines)))
    = inr (join nl [cutoff_marker]).
Proof.
  split.
  - destruct (bound_which_is_not_positive
                (issue_service {[ "max_content_lines" := VInt 20 ]})
                {[ "query" := VStr "bug"; "max_content_lines" := VInt (-1) ]}
                (join (nl +:+ nl +:+ "   ")
                   (wrap_body wrap_word (splitlines three_lines))) (-1)%Z)
      as [Hnegative _]; [vm_compute; reflexivity|].
    rewrite Hnegative by reflexivity. vm_compute. reflexivity.
  - destruct (bound_which_is_not_positive
                (issue_service {[ "max_content_lines" := VInt 20 ]})
                {[ "query" := VStr "bug"; "max_content_lines" := VInt 0 ]}
                (join (nl +:+ nl +:+ "   ")
                   (wrap_body wrap_word (splitlines three_lines))) 0%Z)
      as [_ Hzero]; [vm_compute; reflexivity|].
    apply Hzero; [reflexivity|]. vm_compute. discriminate.
Defined.

(** X20: a construction without a kind, where [BaseService] gives the
    class no attribute [type], does not raise the [KeyError] which
    names the kinds: reading [self.type] raises an [AttributeError].
    The layout has been registered by then. *)
Theorem construction_without_a_kind (py_repr : value → string)
    app name config kwargs t0 types directive :
  needs_types app = t0 :: types →
  subscript t0 "directive" = inr directive →
  kwargs !! "type" = None →
  (∃ arg, (__init__ py_repr None app name config kwargs).2
          = inl (Raise AttributeError arg))
  ∧ is_Some (needs_layouts (__init__ py_repr None app name config kwargs).1
               !! "github").
Proof.
  intros Ht Hd Hk. split.
  - unfold __init__. rewrite Ht, Hd, Hk. eexists. reflexivity.
  - rewrite __init___app, Ht, Hd.
    case_bool_decide as Hown.
    + cbn [needs_layouts]. rewrite lookup_insert_eq. eauto.
    + by apply not_eq_None_Some.
Qed.

(** No kind is given to the construction on the sample host. *)
Lemma construction_without_a_kind_witness :
  ∃ arg, (__init__ repr_unused None sample_app "github-issues" ∅ ∅).2
         = inl (Raise AttributeError arg).
Proof.
  apply (construction_without_a_kind repr_unused sample_app "github-issues" ∅ ∅
           (VDict {[ "directive" := VStr "req" ]}) [] (VStr "req")).
  - reflexivity.
  - vm_compute. reflexivity.
  - reflexivity.
Defined.
